(** * go-serial: the Port session core over libserialport

    A shallow embedding of the Go binding [package serial]: the error
    mapper [errmsg], the [Port] object with its life cycle ([open],
    [Close], [free]), the configuration accessors, and the deadline-driven
    [Read] and [Write].

    The binding is a thin layer over two collaborators whose code is not
    part of the Go package: the C library libserialport and the Go standard
    library ([os.File], [time]).  Both are kept abstract: every call that
    leaves the package is an event answered by a provider, and every event
    is recorded in a trace, so that "which provider call is issued" is a
    statement about the trace. *)

From Stdlib Require Import ZArith List String Bool Lia.
Import ListNotations.
Open Scope Z_scope.

(** ** Constants of libserialport.h

    The binding names the library's enumerators ([C.SP_ERR_ARG], ...)
    without fixing their values; they are a parameter of the development. *)

Class sp_enum : Type := {
  SP_OK : Z;
  SP_ERR_ARG : Z;
  SP_ERR_FAIL : Z;
  SP_ERR_MEM : Z;
  SP_ERR_SUPP : Z;
  SP_MODE_READ : Z;
  SP_MODE_WRITE : Z;
  SP_PARITY_NONE : Z;
  SP_RTS_OFF : Z;
  SP_DTR_OFF : Z;
  SP_FLOWCONTROL_NONE : Z
}.

(** What the header guarantees about [enum sp_return]: success is zero and
    the four error codes are negative and pairwise distinct (a Go [switch]
    with two equal constant cases does not compile). *)
Record sp_return_ok (K : sp_enum) : Prop := {
  ok_zero : SP_OK = 0;
  arg_neg : SP_ERR_ARG < 0;
  fail_neg : SP_ERR_FAIL < 0;
  mem_neg : SP_ERR_MEM < 0;
  supp_neg : SP_ERR_SUPP < 0;
  arg_fail : SP_ERR_ARG <> SP_ERR_FAIL;
  arg_mem : SP_ERR_ARG <> SP_ERR_MEM;
  arg_supp : SP_ERR_ARG <> SP_ERR_SUPP;
  fail_mem : SP_ERR_FAIL <> SP_ERR_MEM;
  fail_supp : SP_ERR_FAIL <> SP_ERR_SUPP;
  mem_supp : SP_ERR_MEM <> SP_ERR_SUPP
}.

(** ** Errors

    The four package-level error values, and the errors that come back from
    package [os] (opaque to the binding).  A Go [error] is [option error],
    [None] being [nil]. *)

Inductive error : Type :=
| InvalidArgumentsError
| SystemError
| MemoryAllocationError
| UnsupportedOperationError
| os_error (e : Z).

Section ErrorMapper.
Context {K : sp_enum}.

(** [func errmsg(err C.enum_sp_return) error]: a [switch] over the four
    error enumerators, falling through to [return nil]. *)
Definition errmsg (err : Z) : option error :=
  if err =? SP_ERR_ARG then Some InvalidArgumentsError
  else if err =? SP_ERR_FAIL then Some SystemError
  else if err =? SP_ERR_MEM then Some MemoryAllocationError
  else if err =? SP_ERR_SUPP then Some UnsupportedOperationError
  else None.

(** A status code the [switch] names. *)
Definition known_error (err : Z) : Prop :=
  err = SP_ERR_ARG \/ err = SP_ERR_FAIL \/ err = SP_ERR_MEM \/ err = SP_ERR_SUPP.

End ErrorMapper.

(** ** C and Go integer conversions

    Go's [int] is 64 bits wide here; cgo gives [C.int] and the enumerations
    with a negative enumerator 32 signed bits, [C.uint] and the other
    enumerations 32 unsigned bits.  A conversion keeps the low 32 bits. *)

Definition C_int (x : Z) : Z := (x + 2 ^ 31) mod 2 ^ 32 - 2 ^ 31.
Definition C_uint (x : Z) : Z := x mod 2 ^ 32.

(** ** Time

    A [time.Time] is the number of nanoseconds since the zero instant, the
    only instant for which [IsZero] holds.  A [time.Duration] is an [int64]
    of nanoseconds, and [Sub] saturates at its two ends. *)

Definition Time : Type := Z.
Definition Duration : Type := Z.

Definition minDuration : Duration := - 2 ^ 63.
Definition maxDuration : Duration := 2 ^ 63 - 1.
Definition Millisecond : Duration := 1000000.

Definition IsZero (t : Time) : bool := t =? 0.

Definition Sub (t u : Time) : Duration :=
  let d := t - u in
  if d <? minDuration then minDuration
  else if maxDuration <? d then maxDuration
  else d.

Definition Nanoseconds (d : Duration) : Z := d.

(** ** Slices

    A [[]byte] argument: its elements and the room left after them in the
    underlying array.  [len] is the number of elements, [cap] adds the
    room. *)

Record slice : Type := { elems : list Byte.byte; spare : nat }.

Definition len (b : slice) : Z := Z.of_nat (List.length (elems b)).
Definition cap (b : slice) : Z := len b + Z.of_nat (spare b).

(** [make([]byte, 1)] and [make([]byte, 0)] *)
Definition one_byte : slice := {| elems := [Byte.x00]; spare := 0 |}.
Definition no_bytes : slice := {| elems := []; spare := 0 |}.

(** ** Calls that leave the package

    One constructor per foreign function the binding calls, indexed by what
    comes back.  For a C function the answer is its return value; where the
    function also writes through a result pointer the answer carries the
    value written, or [None] when the target is left alone.  The per-field
    accessors of [struct sp_port_config] ([sp_get_config_bits],
    [sp_set_config_parity], ...) are one constructor each way, tagged with
    the field. *)

Inductive field : Type :=
| baudrate | bits | parity | stopbits | rts | cts | dtr | dsr | xon_xoff.

Inductive call : Type -> Type :=
| sp_new_config : call (Z * option Z)
| sp_free_port (p : Z) : call unit
| sp_free_config (c : Z) : call unit
| sp_open (p mode : Z) : call Z
| sp_close (p : Z) : call Z
| sp_get_config (p c : Z) : call Z
| sp_set_config (p c : Z) : call Z
| sp_set_baudrate (p baud : Z) : call Z
| sp_get_config_ (fld : field) (c : Z) : call (Z * option Z)
| sp_set_config_ (fld : field) (c v : Z) : call Z
| sp_set_config_flowcontrol (c v : Z) : call Z
| sp_get_port_handle (p : Z) : call (Z * option Z)
| sp_get_port_name (p : Z) : call string
| sp_nonblocking_read (p count : Z) : call Z
| sp_blocking_read (p count timeout : Z) : call Z
| sp_nonblocking_write (p : Z) (data : list Byte.byte) : call Z
| sp_blocking_write (p : Z) (data : list Byte.byte) (timeout : Z) : call Z
| os_NewFile (fd : Z) (name : string) : call Z
| os_File_Read (f count : Z) : call (Z * option error)
| os_File_Write (f : Z) (data : list Byte.byte) : call (Z * option error).

(** A call as it is recorded, its answer type forgotten. *)
Inductive event : Type :=
| Called {R : Type} (e : call R).

(** The provider: libserialport, the operating system behind it and the
    part of the Go runtime the binding uses.  It owns a state of its own
    and answers every call. *)
Class provider : Type := {
  world : Type;
  answer : forall R : Type, call R -> world -> R * world
}.

(** ** The Port object

    Pointers are addresses, [0] being [nil]. *)

Record Port : Type := {
  name : string;
  p : Z;
  c : Z;
  f : Z;
  fd : Z;
  opened : bool;
  readDeadline : Time;
  writeDeadline : Time
}.

Definition set_p (v : Z) (s : Port) : Port :=
  {| name := name s; p := v; c := c s; f := f s; fd := fd s; opened := opened s;
     readDeadline := readDeadline s; writeDeadline := writeDeadline s |}.
Definition set_c (v : Z) (s : Port) : Port :=
  {| name := name s; p := p s; c := v; f := f s; fd := fd s; opened := opened s;
     readDeadline := readDeadline s; writeDeadline := writeDeadline s |}.
Definition set_f (v : Z) (s : Port) : Port :=
  {| name := name s; p := p s; c := c s; f := v; fd := fd s; opened := opened s;
     readDeadline := readDeadline s; writeDeadline := writeDeadline s |}.
Definition set_fd (v : Z) (s : Port) : Port :=
  {| name := name s; p := p s; c := c s; f := f s; fd := v; opened := opened s;
     readDeadline := readDeadline s; writeDeadline := writeDeadline s |}.
Definition set_opened (v : bool) (s : Port) : Port :=
  {| name := name s; p := p s; c := c s; f := f s; fd := fd s; opened := v;
     readDeadline := readDeadline s; writeDeadline := writeDeadline s |}.
Definition set_readDeadline (v : Time) (s : Port) : Port :=
  {| name := name s; p := p s; c := c s; f := f s; fd := fd s; opened := opened s;
     readDeadline := v; writeDeadline := writeDeadline s |}.
Definition set_writeDeadline (v : Time) (s : Port) : Port :=
  {| name := name s; p := p s; c := c s; f := f s; fd := fd s; opened := opened s;
     readDeadline := readDeadline s; writeDeadline := v |}.

(** [&Port{p: p}] *)
Definition new_Port (ptr : Z) : Port :=
  {| name := EmptyString; p := ptr; c := 0; f := 0; fd := 0; opened := false;
     readDeadline := 0; writeDeadline := 0 |}.

(** Serial port options: [type Options struct]; a field left at zero is
    unset. *)
Module Options.
Record t : Type := {
  Mode : Z;
  Baudrate : Z;
  DataBits : Z;
  StopBits : Z;
  Parity : Z;
  FlowControl : Z
}.
(** [Options{}] *)
Definition zero : t :=
  {| Mode := 0; Baudrate := 0; DataBits := 0; StopBits := 0; Parity := 0;
     FlowControl := 0 |}.
Definition with_Baudrate (v : Z) (o : t) : t :=
  {| Mode := Mode o; Baudrate := v; DataBits := DataBits o;
     StopBits := StopBits o; Parity := Parity o; FlowControl := FlowControl o |}.
End Options.

(** ** The machine

    The binding runs against one [Port] object, the provider's world and the
    trace of calls made so far.  A computation returns a value or panics
    (a Go run-time panic), in both cases with the machine it reached. *)

Section Binding.
Context {K : sp_enum} {P : provider}.

Record machine : Type := { port : Port; env : world; trace : list event }.

Inductive result (A : Type) : Type :=
| Return (a : A) (m : machine)
| Panic (m : machine).
Arguments Return {A} a m.
Arguments Panic {A} m.

Definition M (A : Type) : Type := machine -> result A.

Definition ret {A : Type} (a : A) : M A := fun m => Return a m.

Definition bind {A B : Type} (x : M A) (k : A -> M B) : M B :=
  fun m => match x m with
           | Return a m' => k a m'
           | Panic m' => Panic m'
           end.

Definition panic {A : Type} : M A := fun m => Panic m.

(** Read the receiver's fields. *)
Definition self : M Port := fun m => Return (port m) m.

(** Assign to a field of the receiver. *)
Definition update (g : Port -> Port) : M unit :=
  fun m => Return tt {| port := g (port m); env := env m; trace := trace m |}.

(** Make a foreign call: the provider answers, the call is recorded. *)
Definition invoke {R : Type} (e : call R) : M R :=
  fun m => let (r, w) := answer R e (env m) in
           Return r {| port := port m; env := w; trace := trace m ++ [Called e] |}.

Notation "x <- e ;; k" := (bind e (fun x => k))
  (at level 61, e at next level, right associativity).
Notation "' pat <- e ;; k" := (bind e (fun x => match x with pat => k end))
  (at level 61, pat pattern, e at next level, right associativity).
Notation "e ;;; k" := (bind e (fun _ => k))
  (at level 61, right associativity).

(** The value found in a C variable after a call was given its address:
    what the call wrote, else what was there. *)
Definition deref (before : Z) (out : option Z) : Z :=
  match out with Some v => v | None => before end.

(** *** Construction and reclamation *)

(** [func newSerialPort], given the C port: the error is
    returned; on success the object in the machine is the new port, with
    [free] as its finalizer. *)
Definition newSerialPort (ptr : Z) : M (option error) :=
  update (fun _ => new_Port ptr) ;;;
  '(r, out) <- invoke sp_new_config ;;
  update (set_c (deref 0 out)) ;;;
  ret (errmsg r).

(** [func (p *Port) free()], the finalizer. *)
Definition free : M unit :=
  s <- self ;;
  (if opened s then _ <- invoke (sp_close (p s)) ;; ret tt else ret tt) ;;;
  (if negb (p s =? 0) then invoke (sp_free_port (p s)) else ret tt) ;;;
  (if negb (c s =? 0) then invoke (sp_free_config (c s)) else ret tt) ;;;
  update (set_opened false) ;;;
  update (set_p 0) ;;;
  update (set_c 0).

(** [func (p *Port) Close() error] *)
Definition Close : M (option error) :=
  s <- self ;;
  r <- invoke (sp_close (p s)) ;;
  update (set_opened false) ;;;
  ret (errmsg r).

(** [func (p *Port) Name() string] *)
Definition Name : M string :=
  s <- self ;;
  invoke (sp_get_port_name (p s)).

(** *** Configuration accessors *)

(** The body shared by the nine getters: call the accessor on [p.c] with the
    address of a zero local; an error gives [0, err], else the local. *)
Definition getter (fld : field) : M (Z * option error) :=
  s <- self ;;
  '(r, out) <- invoke (sp_get_config_ fld (c s)) ;;
  match errmsg r with
  | Some e => ret (0, Some e)
  | None => ret (deref 0 out, None)
  end.

(** The body shared by the setters that go through [p.c]. *)
Definition setter (fld : field) (v : Z) : M (option error) :=
  s <- self ;;
  r <- invoke (sp_set_config_ fld (c s) (C_int v)) ;;
  ret (errmsg r).

Definition Baudrate : M (Z * option error) := getter baudrate.
Definition DataBits : M (Z * option error) := getter bits.
Definition Parity : M (Z * option error) := getter parity.
Definition StopBits : M (Z * option error) := getter stopbits.
Definition RTS : M (Z * option error) := getter rts.
Definition CTS : M (Z * option error) := getter cts.
Definition DTR : M (Z * option error) := getter dtr.
Definition DSR : M (Z * option error) := getter dsr.
Definition XonXoff : M (Z * option error) := getter xon_xoff.

(** [func (p *Port) SetBaudrate(baudrate int) error] calls
    [C.sp_set_baudrate(p.p, C.int(baudrate))]: on the port, not on [p.c]. *)
Definition SetBaudrate (v : Z) : M (option error) :=
  s <- self ;;
  r <- invoke (sp_set_baudrate (p s) (C_int v)) ;;
  ret (errmsg r).

Definition SetDataBits : Z -> M (option error) := setter bits.
Definition SetParity : Z -> M (option error) := setter parity.
Definition SetStopBits : Z -> M (option error) := setter stopbits.
Definition SetRTS : Z -> M (option error) := setter rts.
Definition SetCTS : Z -> M (option error) := setter cts.
Definition SetDTR : Z -> M (option error) := setter dtr.
Definition SetDSR : Z -> M (option error) := setter dsr.
Definition SetXonXoff : Z -> M (option error) := setter xon_xoff.

(** [func (p *Port) SetFlowControl(xon int) error] *)
Definition SetFlowControl (v : Z) : M (option error) :=
  s <- self ;;
  r <- invoke (sp_set_config_flowcontrol (c s) (C_uint v)) ;;
  ret (errmsg r).

(** [func (p *Port) ApplyConfig() error] *)
Definition ApplyConfig : M (option error) :=
  s <- self ;;
  r <- invoke (sp_set_config (p s) (c s)) ;;
  ret (errmsg r).

(** [func (p *Port) ApplyRawConfig() (err error)] *)
Definition ApplyRawConfig : M (option error) :=
  e1 <- SetDataBits 8 ;;
  match e1 with Some _ => ret e1 | None =>
  e2 <- SetParity SP_PARITY_NONE ;;
  match e2 with Some _ => ret e2 | None =>
  e3 <- SetStopBits 1 ;;
  match e3 with Some _ => ret e3 | None =>
  e4 <- SetFlowControl SP_FLOWCONTROL_NONE ;;
  match e4 with Some _ => ret e4 | None =>
  s <- self ;;
  r <- invoke (sp_set_config (p s) (c s)) ;;
  ret (errmsg r)
  end end end end.

(** *** Open *)

(** The mode [open] asks for: read/write unless the options name one. *)
Definition open_mode (opt : Options.t) : Z :=
  let mode := Z.lor SP_MODE_READ SP_MODE_WRITE in
  if negb (Options.Mode opt =? 0) then Options.Mode opt else mode.

(** [func (p *Port) open(opt *Options) (err error)].  [opt] points to the
    caller's copy of the options; the assignment [opt.Baudrate = 9600]
    changes that copy and nothing else.  The results of the setters and of
    [ApplyConfig] are dropped, as in the source. *)
Definition open (opt : Options.t) : M (option error) :=
  let mode := open_mode opt in
  s <- self ;;
  r <- invoke (sp_open (p s) (C_uint mode)) ;;
  match errmsg r with
  | Some e => ret (Some e)
  | None =>
    r <- invoke (sp_get_config (p s) (c s)) ;;
    match errmsg r with
    | Some e => Close ;;; ret (Some e)
    | None =>
      opt <- (if Options.Baudrate opt =? 0
              then ret (Options.with_Baudrate 9600 opt)
              else SetBaudrate (Options.Baudrate opt) ;;; ret opt) ;;
      (if Options.DataBits opt =? 0
       then SetDataBits 8
       else SetDataBits (Options.DataBits opt)) ;;;
      (if Options.StopBits opt =? 0
       then SetStopBits 1
       else SetStopBits (Options.StopBits opt)) ;;;
      SetParity (Options.Parity opt) ;;;
      SetRTS SP_RTS_OFF ;;;
      SetDTR SP_DTR_OFF ;;;
      SetFlowControl (Options.FlowControl opt) ;;;
      ApplyConfig ;;;
      '(r, out) <- invoke (sp_get_port_handle (p s)) ;;
      update (set_fd (deref (fd s) out)) ;;;
      match errmsg r with
      | Some e => Close ;;; ret (Some e)
      | None =>
        s <- self ;;
        nm <- Name ;;
        fl <- invoke (os_NewFile (fd s) nm) ;;
        update (set_f fl) ;;;
        update (set_opened true) ;;;
        ret None
      end
    end
  end.

(** [func (p *Port) Open(opt Options) error] *)
Definition Open (opt : Options.t) : M (option error) := open opt.

(** *** Deadlines *)

Definition SetDeadline (t : Time) : M (option error) :=
  update (set_readDeadline t) ;;;
  update (set_writeDeadline t) ;;;
  ret None.

Definition SetReadDeadline (t : Time) : M (option error) :=
  update (set_readDeadline t) ;;;
  ret None.

Definition SetWriteDeadline (t : Time) : M (option error) :=
  update (set_writeDeadline t) ;;;
  ret None.

(** *** Read and Write

    [now] is what [time.Now()] returns during the call.  [Read] hands the
    provider the address of the buffer's first element and the buffer's
    length; what the provider stores there is its own effect. *)

(** [&b[0]]: taking the address of the first element of an empty slice is a
    run-time panic (index out of range). *)
Definition first_elem (b : slice) : M unit :=
  match elems b with
  | [] => panic
  | _ :: _ => ret tt
  end.

(** [reflect.ValueOf(&b).Elem().SetLen(n)] panics when [n] is negative or
    above the capacity; otherwise it changes the local slice header only. *)
Definition SetLen (b : slice) (n : Z) : M unit :=
  if (n <? 0) || (cap b <? n) then panic else ret tt.

(** [func (p *Port) Read(b []byte) (int, error)] *)
Definition Read (now : Time) (b : slice) : M (Z * option error) :=
  s <- self ;;
  if IsZero (readDeadline s) then invoke (os_File_Read (f s) (len b))
  else
    let delta := Sub (readDeadline s) now in
    let millis := Z.quot (Nanoseconds delta) Millisecond in
    n <- (if millis <=? 0
          then first_elem b ;;; invoke (sp_nonblocking_read (p s) (len b))
          else first_elem b ;;;
               invoke (sp_blocking_read (p s) (len b) (C_uint millis))) ;;
    if n <? 0 then ret (0, errmsg n)
    else SetLen b n ;;; ret (n, None).

(** [func (p *Port) Write(b []byte) (int, error)] *)
Definition Write (now : Time) (b : slice) : M (Z * option error) :=
  s <- self ;;
  if IsZero (writeDeadline s) then invoke (os_File_Write (f s) (elems b))
  else
    let delta := Sub (writeDeadline s) now in
    let millis := Z.quot (Nanoseconds delta) Millisecond in
    n <- (if millis <=? 0
          then first_elem b ;;; invoke (sp_nonblocking_write (p s) (elems b))
          else first_elem b ;;;
               invoke (sp_blocking_write (p s) (elems b) (C_uint millis))) ;;
    if n <? 0 then ret (0, errmsg n)
    else ret (n, None).

End Binding.

Arguments Return {P A} a m.
Arguments Panic {P A} m.

(** ** Observing a run *)

Section Observing.
Context {P : provider}.

(** The machine a computation stopped in. *)
Definition final {A : Type} (r : result A) : machine :=
  match r with Return _ m => m | Panic m => m end.

(** What it returned, if it did. *)
Definition returned {A : Type} (r : result A) : option A :=
  match r with Return a _ => Some a | Panic _ => None end.

Definition panicked {A : Type} (r : result A) : bool :=
  match r with Return _ _ => false | Panic _ => true end.

(** The calls a computation makes when started in [m], in order. *)
Definition calls_of {A : Type} (x : M A) (m : machine) : list event :=
  skipn (List.length (trace m)) (trace (final (x m))).

(** Sequencing, for statements about one call after another. *)
Definition and_then {A B : Type} (x : M A) (y : M B) : M B :=
  bind x (fun _ => y).

End Observing.

Section Catalogue.
Context {K : sp_enum} {P : provider}.

(** The getters with the setters of the same setting that write [p.c]. *)
Definition accessors : list (M (Z * option error) * (Z -> M (option error))) :=
  [ (DataBits, SetDataBits); (Parity, SetParity); (StopBits, SetStopBits);
    (RTS, SetRTS); (CTS, SetCTS); (DTR, SetDTR); (DSR, SetDSR);
    (XonXoff, SetXonXoff) ].

(** All the setters but [SetBaudrate]. *)
Definition config_setters : list (Z -> M (option error)) :=
  [ SetDataBits; SetParity; SetStopBits; SetRTS; SetCTS; SetDTR; SetDSR;
    SetXonXoff; SetFlowControl ].

(** What the binding needs from the per-field accessors of a configuration:
    the structure is memory.  A field set without error is what the getter
    of that field then stores through its result pointer, without error. *)
Definition config_is_memory : Prop :=
  forall (fld : field) (cfg v : Z) (w : world),
    errmsg (fst (answer Z (sp_set_config_ fld cfg v) w)) = None ->
    exists r : Z,
      errmsg r = None /\
      fst (answer (Z * option Z) (sp_get_config_ fld cfg)
             (snd (answer Z (sp_set_config_ fld cfg v) w))) = (r, Some v).

End Catalogue.

(** ** The deadline policy in the words of the specification

    Unset: the unbounded blocking transfer.  Set, with the remaining time
    (deadline minus now) at most zero: the non-blocking transfer.  Set, with
    the remaining time positive: the bounded blocking transfer, its timeout
    the remaining time in whole milliseconds, rounded down. *)

Inductive transfer : Type :=
| Unbounded
| Immediate
| Bounded (timeout_ms : Z).

Definition policy_spec (deadline now : Time) : transfer :=
  if deadline =? 0 then Unbounded
  else if deadline - now <=? 0 then Immediate
  else Bounded ((deadline - now) / 1000000).

(** The transfer a recorded call stands for. *)
Definition transfer_of (e : event) : option transfer :=
  match e with
  | Called c0 =>
      match c0 with
      | os_File_Read _ _ | os_File_Write _ _ => Some Unbounded
      | sp_nonblocking_read _ _ | sp_nonblocking_write _ _ => Some Immediate
      | sp_blocking_read _ _ t | sp_blocking_write _ _ t => Some (Bounded t)
      | _ => None
      end
  end.

(** ** A reference provider

    One serial device behind libserialport, as a provider to run the binding
    against.  The port structure lives at address [1], the configuration
    allocated by [sp_new_config] at [2]; the device's descriptor is [3] and
    the [os.File] made for it sits at [4].  A port call on anything but an
    open port at [1], or a configuration call on anything but [2], is
    answered [SP_ERR_ARG]; [sp_set_config] leaves alone the settings whose
    configuration field is negative. *)

(** The enumerators as libserialport.h declares them. *)
Definition libserialport_h : sp_enum := {|
  SP_OK := 0;
  SP_ERR_ARG := -1;
  SP_ERR_FAIL := -2;
  SP_ERR_MEM := -3;
  SP_ERR_SUPP := -4;
  SP_MODE_READ := 1;
  SP_MODE_WRITE := 2;
  SP_PARITY_NONE := 0;
  SP_RTS_OFF := 0;
  SP_DTR_OFF := 0;
  SP_FLOWCONTROL_NONE := 0
|}.

Definition field_eqb (a b : field) : bool :=
  match a, b with
  | baudrate, baudrate | bits, bits | parity, parity | stopbits, stopbits
  | rts, rts | cts, cts | dtr, dtr | dsr, dsr | xon_xoff, xon_xoff => true
  | _, _ => false
  end.

Definition settings : Type := field -> Z.

Definition put (fld : field) (v : Z) (s : settings) : settings :=
  fun x => if field_eqb x fld then v else s x.

Record device : Type := {
  line : settings;      (* the settings in force on the hardware *)
  is_open : bool;       (* the descriptor is open *)
  conf : settings;      (* the contents of the configuration at address 2 *)
  rx : Z                (* bytes waiting in the input buffer *)
}.

Definition with_line (l : settings) (d : device) : device :=
  {| line := l; is_open := is_open d; conf := conf d; rx := rx d |}.
Definition with_open (o : bool) (d : device) : device :=
  {| line := line d; is_open := o; conf := conf d; rx := rx d |}.
Definition with_conf (k : settings) (d : device) : device :=
  {| line := line d; is_open := is_open d; conf := k; rx := rx d |}.
Definition with_rx (n : Z) (d : device) : device :=
  {| line := line d; is_open := is_open d; conf := conf d; rx := n |}.

(** [sp_set_config_flowcontrol]: the pin and XON/XOFF fields one of the four
    standard combinations stands for. *)
Definition flowcontrol (v : Z) (k : settings) : settings :=
  let k := put xon_xoff (if v =? 1 then 3 else 0) k in
  let k := if v =? 2 then put cts 1 (put rts 2 k)
           else put cts 0 (if k rts =? 2 then put rts 1 k else k) in
  if v =? 3 then put dsr 1 (put dtr 2 k)
  else put dsr 0 (if k dtr =? 2 then put dtr 1 k else k).

Definition on_port (ptr : Z) (d : device) : bool := (ptr =? 1) && is_open d.

Definition device_answer (R : Type) (e : call R) (d : device) : R * device :=
  match e in call T return T * device with
  | sp_new_config => ((0, Some 2), with_conf (fun _ => -1) d)
  | sp_free_port _ => (tt, d)
  | sp_free_config _ => (tt, d)
  | sp_open ptr _ => if ptr =? 1 then (0, with_open true d) else (-1, d)
  | sp_close ptr => if on_port ptr d then (0, with_open false d) else (-1, d)
  | sp_get_config ptr cfg =>
      if on_port ptr d && (cfg =? 2) then (0, with_conf (line d) d) else (-1, d)
  | sp_set_config ptr cfg =>
      if on_port ptr d && (cfg =? 2)
      then (0, with_line (fun x => if conf d x <? 0 then line d x else conf d x) d)
      else (-1, d)
  | sp_set_baudrate ptr baud =>
      if on_port ptr d then (0, with_line (put baudrate baud (line d)) d)
      else (-1, d)
  | sp_get_config_ fld cfg =>
      if cfg =? 2 then ((0, Some (conf d fld)), d) else ((-1, None), d)
  | sp_set_config_ fld cfg v =>
      if cfg =? 2 then (0, with_conf (put fld v (conf d)) d) else (-1, d)
  | sp_set_config_flowcontrol cfg v =>
      if (cfg =? 2) && (v <=? 3) then (0, with_conf (flowcontrol v (conf d)) d)
      else (-1, d)
  | sp_get_port_handle ptr =>
      if on_port ptr d then ((0, Some 3), d) else ((-1, None), d)
  | sp_get_port_name _ => ("/dev/ttyS0"%string, d)
  | sp_nonblocking_read ptr count | sp_blocking_read ptr count _ =>
      if on_port ptr d
      then (Z.min count (rx d), with_rx (rx d - Z.min count (rx d)) d)
      else (-1, d)
  | sp_nonblocking_write ptr data | sp_blocking_write ptr data _ =>
      if on_port ptr d then (Z.of_nat (List.length data), d) else (-1, d)
  | os_NewFile _ _ => (4, d)
  | os_File_Read fl count =>
      if (fl =? 4) && is_open d
      then ((Z.min count (rx d), None), with_rx (rx d - Z.min count (rx d)) d)
      else ((0, Some (os_error 9)), d)
  | os_File_Write fl data =>
      if (fl =? 4) && is_open d then ((Z.of_nat (List.length data), None), d)
      else ((0, Some (os_error 9)), d)
  end.

Definition reference : provider := {| world := device; answer := device_answer |}.

(** A device left at 115200 baud, 7 data bits, even parity, two stop bits by
    whoever used it last, nothing waiting. *)
Definition at_115200 : device :=
  {| line := fun x => match x with
                      | baudrate => 115200 | bits => 7 | parity => 2
                      | stopbits => 2 | _ => 0
                      end;
     is_open := false; conf := fun _ => 0; rx := 0 |}.

(** The machine before [newSerialPort]. *)
Definition boot (d : device) : @machine reference :=
  @Build_machine reference (new_Port 0) d [].

(** A port structure that was never given a configuration. *)
Definition bare (d : device) : @machine reference :=
  @Build_machine reference (new_Port 1) d [].

(** The binding on the reference provider, with libserialport's
    enumerators. *)
Definition on_reference {A : Type}
  (x : forall (K : sp_enum) (P : provider), @M P A) : @M reference A :=
  x libserialport_h reference.

(** [newSerialPort] on the device's port structure. *)
Definition created (d : device) : @machine reference :=
  final (on_reference (fun K P => newSerialPort 1) (boot d)).

(** ... followed by [Open(opt)]. *)
Definition opened_with (opt : Options.t) (d : device) : @machine reference :=
  final (on_reference (fun K P => Open opt) (created d)).

(** ... followed by [Close()]. *)
Definition closed_after (opt : Options.t) (d : device) : @machine reference :=
  final (on_reference (fun K P => Close) (opened_with opt d)).

(** An opened port with both deadlines set to [t]. *)
Definition opened_until (t : Time) (d : device) : @machine reference :=
  final (on_reference (fun K P => SetDeadline t) (opened_with Options.zero d)).

(** The provider's close. *)
Definition is_close (e : event) : bool :=
  match e with
  | Called c0 => match c0 with sp_close _ => true | _ => false end
  end.

(** A call that is handed the port structure acts on the device; a call
    that is handed the configuration only reads or writes that structure in
    memory. *)
Definition on_hardware (e : event) : bool :=
  match e with
  | Called c0 =>
      match c0 with
      | sp_new_config | sp_free_config _ | sp_get_config_ _ _
      | sp_set_config_ _ _ _ | sp_set_config_flowcontrol _ _ => false
      | _ => true
      end
  end.

(** A call that sets the baud rate, on the port or in a configuration. *)
Definition sets_baudrate (e : event) : bool :=
  match e with
  | Called c0 =>
      match c0 with
      | sp_set_baudrate _ _ | sp_set_config_ baudrate _ _ => true
      | _ => false
      end
  end.

(** ** More of the package *)

Section MoreOfTheBinding.
Context {K : sp_enum} {P : provider}.

(** The nine getters. *)
Definition getters : list (M (Z * option error)) :=
  [ Baudrate; DataBits; Parity; StopBits; RTS; CTS; DTR; DSR; XonXoff ].

(** The calls of [ApplyRawConfig], in source order. *)
Definition raw_sequence (s : Port) : list event :=
  [ Called (sp_set_config_ bits (c s) 8);
    Called (sp_set_config_ parity (c s) (C_int SP_PARITY_NONE));
    Called (sp_set_config_ stopbits (c s) 1);
    Called (sp_set_config_flowcontrol (c s) (C_uint SP_FLOWCONTROL_NONE));
    Called (sp_set_config (p s) (c s)) ].

End MoreOfTheBinding.

(** A setting call: one by which the binding writes a field of a
    configuration or the line settings of the port.  ([sp_get_config], which
    fills a configuration from the device, is not one.) *)
Definition configures (e : event) : bool :=
  match e with
  | Called c0 =>
      match c0 with
      | sp_set_config _ _ | sp_set_baudrate _ _ | sp_set_config_ _ _ _
      | sp_set_config_flowcontrol _ _ => true
      | _ => false
      end
  end.

(** ** The earlier binding, [package serialport] (serialport.go)

    [type SerialPort] has the fields of [Port] without the deadlines; its
    [free], [Close] and accessors have the bodies modelled above.  What
    differs is modelled here: opening, the raw configuration, and [Read] and
    [Write]. *)

(** The pin and XON/XOFF enumerators its [ApplyRawConfig] names. *)
Class sp_pins : Type := {
  SP_CTS_IGNORE : Z;
  SP_DSR_IGNORE : Z;
  SP_XONXOFF_DISABLED : Z
}.

Definition libserialport_pins : sp_pins :=
  {| SP_CTS_IGNORE := 0; SP_DSR_IGNORE := 0; SP_XONXOFF_DISABLED := 0 |}.

Module serialport.
Section Binding.
Context {K : sp_enum} {N : sp_pins} {P : provider}.

Notation "x <- e ;; k" := (bind e (fun x => k))
  (at level 61, e at next level, right associativity).
Notation "' pat <- e ;; k" := (bind e (fun x => match x with pat => k end))
  (at level 61, pat pattern, e at next level, right associativity).
Notation "e ;;; k" := (bind e (fun _ => k))
  (at level 61, right associativity).

(** [func (p *SerialPort) OpenWithMode(flags uint) (err error)] *)
Definition OpenWithMode (flags : Z) : M (option error) :=
  s <- self ;;
  r <- invoke (sp_open (p s) (C_uint flags)) ;;
  match errmsg r with
  | Some e => ret (Some e)
  | None =>
    r <- invoke (sp_get_config (p s) (c s)) ;;
    match errmsg r with
    | Some e => Close ;;; ret (Some e)
    | None =>
      '(r, out) <- invoke (sp_get_port_handle (p s)) ;;
      update (set_fd (deref (fd s) out)) ;;;
      match errmsg r with
      | Some e => Close ;;; ret (Some e)
      | None =>
        s <- self ;;
        nm <- Name ;;
        fl <- invoke (os_NewFile (fd s) nm) ;;
        update (set_f fl) ;;;
        update (set_opened true) ;;;
        ret None
      end
    end
  end.

(** [func (p *SerialPort) Open() error] *)
Definition Open : M (option error) :=
  OpenWithMode (Z.lor SP_MODE_READ SP_MODE_WRITE).

(** [func (p *SerialPort) ApplyRawConfig() (err error)] *)
Definition ApplyRawConfig : M (option error) :=
  e1 <- SetDataBits 8 ;;
  match e1 with Some _ => ret e1 | None =>
  e2 <- SetParity SP_PARITY_NONE ;;
  match e2 with Some _ => ret e2 | None =>
  e3 <- SetStopBits 1 ;;
  match e3 with Some _ => ret e3 | None =>
  e4 <- SetRTS SP_RTS_OFF ;;
  match e4 with Some _ => ret e4 | None =>
  e5 <- SetCTS SP_CTS_IGNORE ;;
  match e5 with Some _ => ret e5 | None =>
  e6 <- SetDTR SP_DTR_OFF ;;
  match e6 with Some _ => ret e6 | None =>
  e7 <- SetDSR SP_DSR_IGNORE ;;
  match e7 with Some _ => ret e7 | None =>
  e8 <- SetXonXoff SP_XONXOFF_DISABLED ;;
  match e8 with Some _ => ret e8 | None =>
  e9 <- SetFlowControl SP_FLOWCONTROL_NONE ;;
  match e9 with Some _ => ret e9 | None =>
  s <- self ;;
  r <- invoke (sp_set_config (p s) (c s)) ;;
  ret (errmsg r)
  end end end end end end end end end.

(** The calls of this [ApplyRawConfig], in source order. *)
Definition raw_sequence (s : Port) : list event :=
  [ Called (sp_set_config_ bits (c s) 8);
    Called (sp_set_config_ parity (c s) (C_int SP_PARITY_NONE));
    Called (sp_set_config_ stopbits (c s) 1);
    Called (sp_set_config_ rts (c s) (C_int SP_RTS_OFF));
    Called (sp_set_config_ cts (c s) (C_int SP_CTS_IGNORE));
    Called (sp_set_config_ dtr (c s) (C_int SP_DTR_OFF));
    Called (sp_set_config_ dsr (c s) (C_int SP_DSR_IGNORE));
    Called (sp_set_config_ xon_xoff (c s) (C_int SP_XONXOFF_DISABLED));
    Called (sp_set_config_flowcontrol (c s) (C_uint SP_FLOWCONTROL_NONE));
    Called (sp_set_config (p s) (c s)) ].

(** [func (p *SerialPort) Read(b []byte) (int, error)] *)
Definition Read (b : slice) : M (Z * option error) :=
  s <- self ;;
  invoke (os_File_Read (f s) (len b)).

(** [func (p *SerialPort) Write(b []byte) (int, error)] *)
Definition Write (b : slice) : M (Z * option error) :=
  s <- self ;;
  invoke (os_File_Write (f s) (elems b)).

End Binding.
End serialport.

(** ** The package-level functions and the remaining methods

    [PortByName], [ListPorts], the package-level [Open], [InputWaiting],
    [OutputWaiting] and [WriteString] make foreign calls of their own.  They
    run in a session: the machine above, with a log of every call in order,
    those of the methods they use ([Base]) and their own ([Called2]).  The
    Port objects they create are returned as values; the machine's Port is
    the object created last. *)

Inductive call2 : Type -> Type :=
| sp_get_port_by_name (name : string) : call2 (Z * option Z)
| sp_list_ports : call2 (Z * list Z)
| sp_free_port_list (arr : list Z) : call2 unit
| sp_copy_port (src : Z) : call2 (Z * option Z)
| sp_input_waiting (p : Z) : call2 Z
| sp_output_waiting (p : Z) : call2 Z
| os_File_WriteString (f : Z) (s : string) : call2 (Z * option error).

Inductive event2 : Type :=
| Base (e : event)
| Called2 {R : Type} (e : call2 R).

(** The provider's answers to these calls, over the same world.  The answer
    to [sp_list_ports] carries the array the result pointer is set to. *)
Class registry (P : provider) : Type := {
  answer2 : forall R : Type, call2 R -> @world P -> R * @world P
}.

Section Package.
Context {K : sp_enum} {P : provider} {Q : registry P}.

Record session : Type := { here : machine; log : list event2 }.

Inductive result2 (A : Type) : Type :=
| Return2 (a : A) (s : session)
| Panic2 (s : session).
Arguments Return2 {A} a s.
Arguments Panic2 {A} s.

Definition M2 (A : Type) : Type := session -> result2 A.

Definition ret2 {A : Type} (a : A) : M2 A := fun s => Return2 a s.

Definition bind2 {A B : Type} (x : M2 A) (k : A -> M2 B) : M2 B :=
  fun s => match x s with
           | Return2 a s' => k a s'
           | Panic2 s' => Panic2 s'
           end.

Definition panic2 {A : Type} : M2 A := fun s => Panic2 s.

(** Run a method of the Port; its calls go to the log. *)
Definition lift {A : Type} (x : M A) : M2 A :=
  fun s =>
    let r := x (here s) in
    let s' := {| here := final r;
                 log := log s ++ map Base (calls_of x (here s)) |} in
    match r with
    | Return a _ => Return2 a s'
    | Panic _ => Panic2 s'
    end.

Definition invoke2 {R : Type} (e : call2 R) : M2 R :=
  fun s =>
    let (r, w) := answer2 R e (env (here s)) in
    Return2 r {| here := {| port := port (here s); env := w;
                            trace := trace (here s) |};
                 log := log s ++ [Called2 e] |}.

(** [defer d] before [body]: [d] runs when [body] is left, by a return or by
    a panic. *)
Definition defer {A B : Type} (d : M2 B) (body : M2 A) : M2 A :=
  fun s => match body s with
           | Return2 a s' => match d s' with
                             | Return2 _ s'' => Return2 a s''
                             | Panic2 s'' => Panic2 s''
                             end
           | Panic2 s' => match d s' with
                          | Return2 _ s'' => Panic2 s''
                          | Panic2 s'' => Panic2 s''
                          end
           end.

Notation "x <- e ;; k" := (bind2 e (fun x => k))
  (at level 61, e at next level, right associativity).
Notation "' pat <- e ;; k" := (bind2 e (fun x => match x with pat => k end))
  (at level 61, pat pattern, e at next level, right associativity).

(** [func PortByName(name string)]: the port and the error.  The C copy of
    the name, made and released around the call, is part of the call. *)
Definition PortByName (name : string) : M2 (option Port * option error) :=
  '(r, out) <- invoke2 (sp_get_port_by_name name) ;;
  match errmsg r with
  | Some e => ret2 (None, Some e)
  | None =>
      err <- lift (newSerialPort (deref 0 out)) ;;
      match err with
      | Some e => ret2 (None, Some e)
      | None => sp <- lift self ;; ret2 (Some sp, None)
      end
  end.

(** The entries of a C array of pointers before its first null. *)
Fixpoint before_null (arr : list Z) : list Z :=
  match arr with
  | [] => []
  | x :: rest => if x =? 0 then [] else x :: before_null rest
  end.

(** The loop "populate" of [ListPorts]: copy each port and wrap the copy;
    the first error ends the function with [nil] and that error. *)
Fixpoint populate (pp : list Z) : M2 (option (list Port) * option error) :=
  match pp with
  | [] => ret2 (Some [], None)
  | src :: rest =>
      '(r, out) <- invoke2 (sp_copy_port src) ;;
      match errmsg r with
      | Some e => ret2 (None, Some e)
      | None =>
          err <- lift (newSerialPort (deref 0 out)) ;;
          match err with
          | Some e => ret2 (None, Some e)
          | None =>
              sp <- lift self ;;
              '(ports, err') <- populate rest ;;
              match ports with
              | Some l => ret2 (Some (sp :: l), None)
              | None => ret2 (None, err')
              end
          end
      end
  end.

(** [func ListPorts()]: the slice ([None] is [nil]) and the error.  The
    array is read through a pointer to [[1 << 15]] elements, so counting
    past index [1 << 15 - 1] panics; the deferred [sp_free_port_list] runs
    on every way out once it is registered.  An answer of [SP_OK] is taken
    to come with an array. *)
Definition ListPorts : M2 (option (list Port) * option error) :=
  '(r, arr) <- invoke2 sp_list_ports ;;
  if negb (r =? SP_OK) then ret2 (None, errmsg r)
  else
    defer (invoke2 (sp_free_port_list arr))
      (let pp := before_null arr in
       if 2 ^ 15 <=? Z.of_nat (List.length pp) then panic2
       else populate pp).

(** [func Open(name string, opt Options)], the package-level function. *)
Definition OpenByName (name : string) (opt : Options.t)
  : M2 (option Port * option error) :=
  '(_, err) <- PortByName name ;;
  match err with
  | Some e => ret2 (None, Some e)
  | None =>
      err <- lift (open opt) ;;
      match err with
      | Some e => ret2 (None, Some e)
      | None => sp <- lift self ;; ret2 (Some sp, None)
      end
  end.

(** [func (p *Port) InputWaiting() (int, error)] *)
Definition InputWaiting : M2 (Z * option error) :=
  s <- lift self ;;
  n <- invoke2 (sp_input_waiting (p s)) ;;
  if n <? 0 then ret2 (0, errmsg n) else ret2 (n, None).

(** [func (p *Port) OutputWaiting() (int, error)] *)
Definition OutputWaiting : M2 (Z * option error) :=
  s <- lift self ;;
  n <- invoke2 (sp_output_waiting (p s)) ;;
  if n <? 0 then ret2 (0, errmsg n) else ret2 (n, None).

(** [func (p *Port) WriteString(s string) (int, error)] *)
Definition WriteString (str : string) : M2 (Z * option error) :=
  s <- lift self ;;
  invoke2 (os_File_WriteString (f s) str).

Definition final2 {A : Type} (r : result2 A) : session :=
  match r with Return2 _ s => s | Panic2 s => s end.

Definition returned2 {A : Type} (r : result2 A) : option A :=
  match r with Return2 a _ => Some a | Panic2 _ => None end.

Definition calls2 {A : Type} (x : M2 A) (s : session) : list event2 :=
  skipn (List.length (log s)) (log (final2 (x s))).

(** A session starting on a machine. *)
Definition start (m : machine) : session := {| here := m; log := [] |}.

End Package.

Arguments Return2 {P A} a s.
Arguments Panic2 {P A} s.

Definition is_free_port_list (e : event2) : bool :=
  match e with
  | Called2 c0 => match c0 with sp_free_port_list _ => true | _ => false end
  | Base _ => false
  end.

(** A Port as [newSerialPort] leaves it: not opened, no file, no deadline. *)
Definition unopened (sp : Port) : bool :=
  negb (opened sp) && (f sp =? 0) && (readDeadline sp =? 0)
  && (writeDeadline sp =? 0).

(** The reference provider's answers: every non-empty name is the device,
    the port list is the device alone. *)
Definition device_answer2 (R : Type) (e : call2 R) (d : device) : R * device :=
  match e in call2 T return T * device with
  | sp_get_port_by_name nm =>
      if String.eqb nm EmptyString then ((-1, None), d) else ((0, Some 1), d)
  | sp_list_ports => ((0, [1; 0]), d)
  | sp_free_port_list _ => (tt, d)
  | sp_copy_port src => if src =? 1 then ((0, Some 1), d) else ((-1, None), d)
  | sp_input_waiting ptr => if on_port ptr d then (rx d, d) else (-1, d)
  | sp_output_waiting ptr => if on_port ptr d then (0, d) else (-1, d)
  | os_File_WriteString fl str =>
      if (fl =? 4) && is_open d then ((Z.of_nat (String.length str), None), d)
      else ((0, Some (os_error 9)), d)
  end.

Definition reference_registry : registry reference :=
  @Build_registry reference device_answer2.

(** The configuring calls of [open], in source order: the baud rate only
    when the options name one, 8 data bits and 1 stop bit when they name
    none, parity and flow control as given, RTS and DTR off. *)
Definition open_configuration {K : sp_enum} (opt : Options.t) (s : Port)
  : list event :=
  (if Options.Baudrate opt =? 0 then []
   else [Called (sp_set_baudrate (p s) (C_int (Options.Baudrate opt)))]) ++
  [ Called (sp_set_config_ bits (c s)
              (C_int (if Options.DataBits opt =? 0 then 8
                      else Options.DataBits opt)));
    Called (sp_set_config_ stopbits (c s)
              (C_int (if Options.StopBits opt =? 0 then 1
                      else Options.StopBits opt)));
    Called (sp_set_config_ parity (c s) (C_int (Options.Parity opt)));
    Called (sp_set_config_ rts (c s) (C_int SP_RTS_OFF));
    Called (sp_set_config_ dtr (c s) (C_int SP_DTR_OFF));
    Called (sp_set_config_flowcontrol (c s) (C_uint (Options.FlowControl opt)));
    Called (sp_set_config (p s) (c s)) ].

(** ** Reference points for the properties below *)

Section ReferencePoints.
Context {K : sp_enum} {P : provider}.

Notation "x <- e ;; k" := (bind e (fun x => k))
  (at level 61, e at next level, right associativity).
Notation "e ;;; k" := (bind e (fun _ => k))
  (at level 61, right associativity).

(** The middle of [open], from "set baudrate" to "apply config": the
    setters and [ApplyConfig] one after the other, every result dropped. *)
Definition configure (opt : Options.t) : M unit :=
  opt <- (if Options.Baudrate opt =? 0
          then ret (Options.with_Baudrate 9600 opt)
          else SetBaudrate (Options.Baudrate opt) ;;; ret opt) ;;
  (if Options.DataBits opt =? 0
   then SetDataBits 8
   else SetDataBits (Options.DataBits opt)) ;;;
  (if Options.StopBits opt =? 0
   then SetStopBits 1
   else SetStopBits (Options.StopBits opt)) ;;;
  SetParity (Options.Parity opt) ;;;
  SetRTS SP_RTS_OFF ;;;
  SetDTR SP_DTR_OFF ;;;
  SetFlowControl (Options.FlowControl opt) ;;;
  ApplyConfig ;;;
  ret tt.

(** Make the calls in order; stop at the first whose answer [errmsg] maps to
    an error and return that error; return nil when none does. *)
Fixpoint until_error (cs : list (call Z)) : M (option error) :=
  match cs with
  | [] => ret None
  | c0 :: rest =>
      r <- invoke c0 ;;
      match errmsg r with
      | Some e => ret (Some e)
      | None => until_error rest
      end
  end.

(** The first error among three status codes. *)
Definition first_error (r0 r1 r2 : Z) : option error :=
  match errmsg r0 with
  | Some e => Some e
  | None => match errmsg r1 with
            | Some e => Some e
            | None => errmsg r2
            end
  end.

(** The calls of [ApplyRawConfig], as calls. *)
Definition raw_calls (s : Port) : list (call Z) :=
  [ sp_set_config_ bits (c s) 8;
    sp_set_config_ parity (c s) (C_int SP_PARITY_NONE);
    sp_set_config_ stopbits (c s) 1;
    sp_set_config_flowcontrol (c s) (C_uint SP_FLOWCONTROL_NONE);
    sp_set_config (p s) (c s) ].

(** Each getter with the field of the configuration it reads. *)
Definition getter_fields : list (M (Z * option error) * field) :=
  [ (Baudrate, baudrate); (DataBits, bits); (Parity, parity);
    (StopBits, stopbits); (RTS, rts); (CTS, cts); (DTR, dtr); (DSR, dsr);
    (XonXoff, xon_xoff) ].

End ReferencePoints.

(** The calls of the earlier [ApplyRawConfig], as calls. *)
Definition earlier_raw_calls {K : sp_enum} {N : sp_pins} (s : Port)
  : list (call Z) :=
  [ sp_set_config_ bits (c s) 8;
    sp_set_config_ parity (c s) (C_int SP_PARITY_NONE);
    sp_set_config_ stopbits (c s) 1;
    sp_set_config_ rts (c s) (C_int SP_RTS_OFF);
    sp_set_config_ cts (c s) (C_int SP_CTS_IGNORE);
    sp_set_config_ dtr (c s) (C_int SP_DTR_OFF);
    sp_set_config_ dsr (c s) (C_int SP_DSR_IGNORE);
    sp_set_config_ xon_xoff (c s) (C_int SP_XONXOFF_DISABLED);
    sp_set_config_flowcontrol (c s) (C_uint SP_FLOWCONTROL_NONE);
    sp_set_config (p s) (c s) ].

(** * Properties *)

(** ** The error mapper *)

Lemma libserialport_h_ok : sp_return_ok libserialport_h.
Proof. constructor; cbn; lia. Qed.

Section ErrorMapperFacts.
Context {K : sp_enum}.

Lemma errmsg_unknown (err : Z) : ~ known_error err -> errmsg err = None.
Proof.
  unfold known_error, errmsg; intros H.
  repeat match goal with
         | |- context [?a =? ?b] => destruct (Z.eqb_spec a b); [tauto|]
         end.
  reflexivity.
Qed.

Lemma errmsg_some_known (err : Z) (e : error) :
  errmsg err = Some e -> known_error err.
Proof.
  unfold errmsg, known_error.
  repeat match goal with
         | |- context [?a =? ?b] => destruct (Z.eqb_spec a b); [tauto|]
         end.
  discriminate.
Qed.

Lemma errmsg_nonneg (HK : sp_return_ok K) (err : Z) :
  0 <= err -> errmsg err = None.
Proof.
  intros H; apply errmsg_unknown; unfold known_error.
  destruct HK; lia.
Qed.

End ErrorMapperFacts.

(** C9, as stated, fails: a negative status code outside the four named
    ones, such as [-5], is mapped to [nil], not to [SystemError]. *)
Lemma errmsg_unknown_negative_is_nil :
  -5 < 0 /\ ~ @known_error libserialport_h (-5) /\
  @errmsg libserialport_h (-5) = None /\
  @errmsg libserialport_h (-5) <> Some SystemError.
Proof.
  repeat split; try discriminate; try lia.
  unfold known_error; cbn; lia.
Qed.

(** C9, amended: [errmsg] is a total function of the status code alone.
    [SP_ERR_ARG], [SP_ERR_FAIL], [SP_ERR_MEM] and [SP_ERR_SUPP] map to
    [InvalidArgumentsError], [SystemError], [MemoryAllocationError] and
    [UnsupportedOperationError]; [SP_OK], every non-negative code and every
    other code, negative ones included, map to [nil]. *)
Theorem errmsg_mapping (K : sp_enum) (HK : sp_return_ok K) :
  errmsg SP_ERR_ARG = Some InvalidArgumentsError /\
  errmsg SP_ERR_FAIL = Some SystemError /\
  errmsg SP_ERR_MEM = Some MemoryAllocationError /\
  errmsg SP_ERR_SUPP = Some UnsupportedOperationError /\
  errmsg SP_OK = None /\
  (forall code, 0 <= code -> errmsg code = None) /\
  (forall code, ~ known_error code -> errmsg code = None).
Proof.
  pose proof HK as [H0 Ha Hf Hm Hs Haf Ham Has Hfm Hfs Hms].
  unfold errmsg.
  rewrite !Z.eqb_refl.
  repeat split.
  - destruct (Z.eqb_spec SP_ERR_FAIL SP_ERR_ARG); congruence.
  - destruct (Z.eqb_spec SP_ERR_MEM SP_ERR_ARG); [congruence|].
    destruct (Z.eqb_spec SP_ERR_MEM SP_ERR_FAIL); congruence.
  - destruct (Z.eqb_spec SP_ERR_SUPP SP_ERR_ARG); [congruence|].
    destruct (Z.eqb_spec SP_ERR_SUPP SP_ERR_FAIL); [congruence|].
    destruct (Z.eqb_spec SP_ERR_SUPP SP_ERR_MEM); congruence.
  - apply (errmsg_nonneg HK); lia.
  - intros code Hc; apply (errmsg_nonneg HK); exact Hc.
  - intros code Hc; apply errmsg_unknown; exact Hc.
Qed.

(** [errmsg_mapping] at the enumerators of libserialport.h. *)
Lemma errmsg_mapping_witness :
  sp_return_ok libserialport_h /\
  @errmsg libserialport_h (-2) = Some SystemError /\
  @errmsg libserialport_h 7 = None.
Proof.
  split; [constructor; cbn; lia|].
  pose proof (errmsg_mapping libserialport_h
                ltac:(constructor; cbn; lia)) as (_ & Hf & _ & _ & _ & Hn & _).
  split; [exact Hf | apply Hn; lia].
Defined.

(** ** Running the machine *)

Lemma skipn_length_app {A : Type} (l l' : list A) :
  skipn (List.length l) (l ++ l') = l'.
Proof. induction l as [|a l IH]; cbn; auto. Qed.

Lemma skipn_length_nil {A : Type} (l : list A) :
  skipn (List.length l) l = [].
Proof. induction l as [|a l IH]; cbn; auto. Qed.

(** Unfold the binding's methods down to provider answers, name each
    answer, and bring every trace to the form [trace m ++ calls]. *)
Ltac answers :=
  repeat match goal with
         | |- context [answer ?R ?e ?w] =>
             let r := fresh "r" in
             let w' := fresh "w" in
             let E := fresh "E" in
             destruct (answer R e w) as [r w'] eqn:E;
             match type of r with
             | prod _ _ => destruct r as [? ?]
             | _ => idtac
             end; cbn in *
         end.

Ltac traces :=
  cbn; rewrite <- ?app_assoc; cbn;
  rewrite ?skipn_length_app, ?skipn_length_nil; cbn.

Ltac run_with defs :=
  unfold calls_of, and_then; defs;
  unfold bind, self, invoke, update, ret, panic; cbn.

Section Lifecycle.
Context {K : sp_enum} {P : provider}.

(** [free] calls the provider's close exactly when the port is marked
    opened. *)
Lemma free_closes_iff_opened (m : machine) :
  existsb is_close (calls_of free m) = opened (port m).
Proof.
  run_with ltac:(unfold free).
  destruct (opened (port m)), (p (port m) =? 0), (c (port m) =? 0);
    cbn; answers; traces; reflexivity.
Qed.

Lemma Close_clears_opened (m : machine) :
  opened (port (final (Close m))) = false.
Proof.
  run_with ltac:(unfold Close); answers; reflexivity.
Qed.

Lemma free_returns (m : machine) : panicked (free m) = false.
Proof.
  run_with ltac:(unfold free).
  destruct (opened (port m)), (p (port m) =? 0), (c (port m) =? 0);
    cbn; answers; reflexivity.
Qed.

Lemma free_twice (m : machine) :
  free (final (free m)) = Return tt (final (free m)).
Proof.
  run_with ltac:(unfold free).
  destruct (opened (port m)), (p (port m) =? 0), (c (port m) =? 0);
    cbn; answers; reflexivity.
Qed.

Lemma reopen_port (s : Port) : opened s = false -> set_opened false s = s.
Proof. destruct s; cbn; intros ->; reflexivity. Qed.

(** C7: the finalizer after [Close] does not call the provider's close
    again (one close in all); a second [free] makes no call and changes
    nothing; on a port that was never opened [free] makes no close call; and
    [free] always returns. *)
Theorem free_releases_once (m : machine) (ptr : Z) :
  existsb is_close (calls_of free (final (Close m))) = false /\
  List.length (filter is_close (calls_of (and_then Close free) m)) = 1%nat /\
  free (final (free m)) = Return tt (final (free m)) /\
  calls_of free (final (free m)) = [] /\
  existsb is_close (calls_of free (final (newSerialPort ptr m))) = false /\
  (forall m' : machine, panicked (free m') = false).
Proof.
  split; [rewrite free_closes_iff_opened; apply Close_clears_opened|].
  split.
  { run_with ltac:(unfold Close, free); answers.
    destruct (p (port m) =? 0), (c (port m) =? 0);
      cbn; answers; traces; reflexivity. }
  split; [apply free_twice|].
  split; [unfold calls_of; rewrite free_twice; cbn; apply skipn_length_nil|].
  split; [|apply free_returns].
  rewrite free_closes_iff_opened.
  run_with ltac:(unfold newSerialPort); answers; reflexivity.
Qed.

(** C6, amended: [Close] always hands the port to the provider's close,
    clears the opened mark and returns the provider's status through
    [errmsg], for every port, opened or not.  On a port that is not marked
    opened this is one more provider close, the Port object is left as it
    was, and the call succeeds exactly when the provider's answer maps to
    [nil]. *)
Theorem Close_again (m : machine) :
  Close m =
  Return (errmsg (fst (answer Z (sp_close (p (port m))) (env m))))
         {| port := set_opened false (port m);
            env := snd (answer Z (sp_close (p (port m))) (env m));
            trace := trace m ++ [Called (sp_close (p (port m)))] |} /\
  (opened (port m) = false ->
   Close m =
   Return (errmsg (fst (answer Z (sp_close (p (port m))) (env m))))
          {| port := port m;
             env := snd (answer Z (sp_close (p (port m))) (env m));
             trace := trace m ++ [Called (sp_close (p (port m)))] |}).
Proof.
  split; [|intros H]; run_with ltac:(unfold Close); answers.
  - reflexivity.
  - rewrite (reopen_port _ H); reflexivity.
Qed.

End Lifecycle.

(** C6, as stated, fails: on the reference provider, after a port was opened
    and closed with success, a further [Close] calls the provider's close
    again and returns [InvalidArgumentsError]. *)
Lemma Close_twice_second_error :
  let m := closed_after Options.zero at_115200 in
  opened (port m) = false /\
  returned (on_reference (fun K P => Close) (opened_with Options.zero at_115200))
  = Some None /\
  calls_of (on_reference (fun K P => Close)) m = [Called (sp_close 1)] /\
  returned (on_reference (fun K P => Close) m) = Some (Some InvalidArgumentsError).
Proof. vm_compute. repeat split. Qed.

(** [Close_again] on a port of the reference provider that was opened and
    closed. *)
Lemma Close_again_witness :
  let m := closed_after Options.zero at_115200 in
  opened (port m) = false /\
  returned (@Close libserialport_h reference m) = Some (Some InvalidArgumentsError).
Proof.
  cbv zeta. split; [reflexivity|].
  rewrite (proj2 (@Close_again libserialport_h reference
                    (closed_after Options.zero at_115200)) eq_refl).
  reflexivity.
Defined.

(** ** Open *)

Section Opening.
Context {K : sp_enum} {P : provider}.

Ltac unfold_open :=
  unfold open, Open, Close, SetBaudrate, SetDataBits, SetStopBits, SetParity,
    SetRTS, SetDTR, SetFlowControl, setter, ApplyConfig, Name.

(** C8: when [open] returns an error, either the provider's open itself
    failed and nothing else was called, or the provider's open succeeded and
    the last call made before returning is the provider's close on the same
    port, made once, with the port left not opened. *)
Theorem open_error_closes (m : machine) (opt : Options.t) (e : error) :
  returned (open opt m) = Some (Some e) ->
  let first := Called (sp_open (p (port m)) (C_uint (open_mode opt))) in
  let calls := calls_of (open opt) m in
  (errmsg (fst (answer Z (sp_open (p (port m)) (C_uint (open_mode opt)))
                  (env m))) = Some e /\
   calls = [first]) \/
  (errmsg (fst (answer Z (sp_open (p (port m)) (C_uint (open_mode opt)))
                  (env m))) = None /\
   hd_error calls = Some first /\
   last calls first = Called (sp_close (p (port m))) /\
   List.length (filter is_close calls) = 1%nat /\
   opened (port (final (open opt m))) = false).
Proof.
  run_with ltac:(unfold_open).
  destruct (answer Z (sp_open (p (port m)) (C_uint (open_mode opt))) (env m))
    as [r0 w0] eqn:E0; cbn.
  destruct (errmsg r0) as [e0|] eqn:H0; cbn.
  { intros [= ->]. left. split; [reflexivity|]. traces. reflexivity. }
  destruct (answer Z (sp_get_config (p (port m)) (c (port m))) w0)
    as [r1 w1] eqn:E1; cbn.
  destruct (errmsg r1) as [e1|] eqn:H1; cbn.
  { answers. intros [= ->]. right. traces. repeat split. }
  destruct (Options.Baudrate opt =? 0); cbn; answers;
  (destruct (Options.DataBits opt =? 0); cbn; answers;
   destruct (Options.StopBits opt =? 0); cbn; answers;
   match goal with |- context [errmsg ?r] => destruct (errmsg r) eqn:? end;
   cbn; answers; try discriminate; intros [= ->]; right; traces; repeat split).
Qed.

End Opening.

(** [open_error_closes] on a port without configuration: the provider opens
    it, refuses [sp_get_config], and [open] closes it. *)
Lemma open_error_closes_witness :
  returned (@open libserialport_h reference Options.zero (bare at_115200))
  = Some (Some InvalidArgumentsError) /\
  calls_of (@open libserialport_h reference Options.zero) (bare at_115200)
  = [Called (sp_open 1 3); Called (sp_get_config 1 0); Called (sp_close 1)].
Proof.
  split; [reflexivity|].
  destruct (@open_error_closes libserialport_h reference (bare at_115200)
              Options.zero InvalidArgumentsError eq_refl)
    as [[H _]|_]; [discriminate H | reflexivity].
Defined.

(** ** Configuration *)

Section Configuration.
Context {K : sp_enum} {P : provider}.

Ltac unfold_config :=
  unfold DataBits, Parity, StopBits, RTS, CTS, DTR, DSR, XonXoff, Baudrate,
    SetDataBits, SetParity, SetStopBits, SetRTS, SetCTS, SetDTR, SetDSR,
    SetXonXoff, SetFlowControl, SetBaudrate, ApplyConfig, getter, setter.

(** A setter that goes through [p.c] makes one call, on the configuration. *)
Lemma setter_calls (fld : field) (v : Z) (m : machine) :
  calls_of (setter fld v) m = [Called (sp_set_config_ fld (c (port m)) (C_int v))] /\
  port (final (setter fld v m)) = port m.
Proof. run_with ltac:(unfold setter); answers; traces; split; reflexivity. Qed.

Lemma SetFlowControl_calls (v : Z) (m : machine) :
  calls_of (SetFlowControl v) m
  = [Called (sp_set_config_flowcontrol (c (port m)) (C_uint v))] /\
  port (final (SetFlowControl v m)) = port m.
Proof.
  run_with ltac:(unfold SetFlowControl); answers; traces; split; reflexivity.
Qed.

(** [SetBaudrate] makes one call, on the port. *)
Lemma SetBaudrate_calls (v : Z) (m : machine) :
  calls_of (SetBaudrate v) m = [Called (sp_set_baudrate (p (port m)) (C_int v))] /\
  port (final (SetBaudrate v m)) = port m.
Proof.
  run_with ltac:(unfold SetBaudrate); answers; traces; split; reflexivity.
Qed.

(** The setters other than [SetBaudrate] never reach the hardware, opened
    port or not. *)
Lemma config_setters_off_hardware (set : Z -> M (option error)) (v : Z) (m : machine) :
  In set config_setters ->
  existsb on_hardware (calls_of (set v) m) = false /\
  port (final (set v m)) = port m.
Proof.
  unfold config_setters; cbn; intros H.
  repeat (destruct H as [<-|H];
          [run_with ltac:(unfold_config); answers; traces; split; reflexivity|]).
  destruct H.
Qed.

(** With no baud rate in the options, [open] makes no call that sets a baud
    rate, neither on the port nor in the configuration. *)
Lemma open_unset_baudrate_sets_none (opt : Options.t) (m : machine) :
  Options.Baudrate opt = 0 ->
  existsb sets_baudrate (calls_of (open opt) m) = false.
Proof.
  intros H0.
  run_with ltac:(unfold open, Close, SetBaudrate, SetDataBits, SetStopBits,
                  SetParity, SetRTS, SetDTR, SetFlowControl, setter,
                  ApplyConfig, Name).
  rewrite H0; cbn.
  destruct (answer Z (sp_open (p (port m)) (C_uint (open_mode opt))) (env m))
    as [r0 w0] eqn:E0; cbn.
  destruct (errmsg r0) as [e0|] eqn:H1; cbn; [traces; reflexivity|].
  destruct (answer Z (sp_get_config (p (port m)) (c (port m))) w0)
    as [r1 w1] eqn:E1; cbn.
  destruct (errmsg r1) as [e1|] eqn:H2; cbn; [answers; traces; reflexivity|].
  destruct (Options.DataBits opt =? 0); cbn; answers;
  (destruct (Options.StopBits opt =? 0); cbn; answers;
   match goal with |- context [errmsg ?r] => destruct (errmsg r) eqn:? end;
   cbn; answers; traces; reflexivity).
Qed.

(** On a configuration that is memory, the getter of a field returns what
    its setter stored. *)
Lemma getter_after_setter
  (HP : config_is_memory) (fld : field) (v : Z) (m : machine) :
  returned (setter fld v m) = Some None ->
  returned (getter fld (final (setter fld v m))) = Some (C_int v, None).
Proof.
  pose proof (HP fld (c (port m)) (C_int v) (env m)) as L.
  run_with ltac:(unfold setter, getter).
  destruct (answer Z _ (env m)) as [r0 w0] eqn:E0; cbn in *.
  intros [= Hr]; destruct (L Hr) as (r1 & Hr1 & L1).
  destruct (answer (Z * option Z) _ w0) as [[r2 o2] w2] eqn:E2; cbn in *.
  injection L1 as -> ->; rewrite Hr1; reflexivity.
Qed.

(** C3, amended: for each of [DataBits], [Parity], [StopBits], [RTS], [CTS],
    [DTR], [DSR] and [XonXoff], the getter called after its setter returned
    no error, with no [ApplyConfig] in between, returns the value just set
    (as a C int), without error: getter and setter act on the one
    configuration [p.c]. *)
Theorem getter_sees_pending_value
  (HP : config_is_memory) (get : M (Z * option error))
  (set : Z -> M (option error)) (v : Z) (m : machine) :
  In (get, set) accessors ->
  returned (set v m) = Some None ->
  returned (get (final (set v m))) = Some (C_int v, None).
Proof.
  unfold accessors; cbn; intros H.
  repeat (destruct H as [H|H];
          [injection H as <- <-; apply getter_after_setter; exact HP|]).
  destruct H.
Qed.


End Configuration.

(** The reference provider's configuration is memory. *)
Lemma reference_config_is_memory : @config_is_memory libserialport_h reference.
Proof.
  intros fld cfg v w; cbn.
  destruct (cfg =? 2); cbn; [intros _|discriminate].
  exists 0; split; [reflexivity|].
  unfold put; destruct fld; reflexivity.
Qed.

(** C3, as stated, fails: on the reference provider, a port opened with the
    default options has 8 data bits applied; after [SetDataBits(7)] alone,
    [DataBits()] returns the pending 7 while the device is still at 8. *)
Lemma DataBits_returns_pending_value :
  let m := opened_with Options.zero at_115200 in
  let m' := final (on_reference (fun K P => SetDataBits 7) m) in
  returned (on_reference (fun K P => DataBits) m) = Some (8, None) /\
  line (env m) bits = 8 /\
  returned (on_reference (fun K P => SetDataBits 7) m) = Some None /\
  calls_of (on_reference (fun K P => SetDataBits 7)) m
  = [Called (sp_set_config_ bits 2 7)] /\
  returned (on_reference (fun K P => DataBits) m') = Some (7, None) /\
  line (env m') bits = 8.
Proof. vm_compute. repeat split. Qed.

(** [getter_sees_pending_value] for [SetDataBits(7)] on an opened port of the
    reference provider. *)
Lemma getter_sees_pending_value_witness :
  let m := opened_with Options.zero at_115200 in
  returned (@SetDataBits libserialport_h reference 7 m) = Some None /\
  returned (@DataBits libserialport_h reference
              (final (@SetDataBits libserialport_h reference 7 m)))
  = Some (7, None).
Proof.
  cbv zeta; split; [reflexivity|].
  apply (@getter_sees_pending_value libserialport_h reference
           reference_config_is_memory DataBits SetDataBits 7
           (opened_with Options.zero at_115200)).
  - left; reflexivity.
  - reflexivity.
Defined.

(** C2, on the code: [Open(Options{})] on a device left at 115200 baud
    succeeds, applies the defaults for data bits, parity and stop bits, and
    makes no call that sets a baud rate; the device stays at 115200 baud and
    [Baudrate()] returns 115200, not 9600. *)
Theorem Open_unset_baudrate_keeps_device_rate :
  let m := opened_with Options.zero at_115200 in
  returned (on_reference (fun K P => Open Options.zero) (created at_115200))
  = Some None /\
  opened (port m) = true /\
  existsb sets_baudrate
    (calls_of (on_reference (fun K P => Open Options.zero)) (created at_115200))
  = false /\
  map (line (env m)) [bits; parity; stopbits] = [8; 0; 1] /\
  line (env m) baudrate = 115200 /\
  returned (on_reference (fun K P => Baudrate) m) = Some (115200, None).
Proof. vm_compute. repeat split. Qed.

(** C4, on the code: [SetBaudrate(9600)] on an opened port makes one call,
    [sp_set_baudrate] on the port; the device's rate changes at once, from
    115200 to 9600, and the configuration [p.c] still holds 115200. *)
Theorem SetBaudrate_reaches_hardware :
  let m := opened_with Options.zero at_115200 in
  let m' := final (on_reference (fun K P => SetBaudrate 9600) m) in
  calls_of (on_reference (fun K P => SetBaudrate 9600)) m
  = [Called (sp_set_baudrate 1 9600)] /\
  forallb on_hardware (calls_of (on_reference (fun K P => SetBaudrate 9600)) m)
  = true /\
  line (env m) baudrate = 115200 /\
  line (env m') baudrate = 9600 /\
  conf (env m') baudrate = 115200 /\
  returned (on_reference (fun K P => Baudrate) m') = Some (115200, None).
Proof. vm_compute. repeat split. Qed.

(** ** Read and Write *)

(** Less than a millisecond left, or the deadline passed: the whole
    milliseconds left are none. *)
Lemma millis_nonpos (d now : Time) :
  d - now < Millisecond ->
  Z.quot (Nanoseconds (Sub d now)) Millisecond <= 0.
Proof.
  unfold Nanoseconds, Sub, minDuration, maxDuration, Millisecond; intros H.
  destruct (Z.ltb_spec (d - now) (- 2 ^ 63)).
  - vm_compute; discriminate.
  - destruct (Z.ltb_spec (2 ^ 63 - 1) (d - now)); [lia|].
    destruct (Z.le_gt_cases 0 (d - now)).
    + rewrite Z.quot_small; lia.
    + apply Z.quot_le_upper_bound; lia.
Qed.

(** A millisecond or more left and the count below [2 ^ 32]: no saturation,
    no wrap, and the count is the time left rounded down. *)
Lemma millis_pos (d now : Time) :
  Millisecond <= d - now ->
  Z.quot (d - now) Millisecond < 2 ^ 32 ->
  Nanoseconds (Sub d now) = d - now /\
  0 < Z.quot (d - now) Millisecond /\
  C_uint (Z.quot (d - now) Millisecond) = Z.quot (d - now) Millisecond /\
  Z.quot (d - now) Millisecond * Millisecond <= d - now.
Proof.
  unfold Nanoseconds, Sub, minDuration, maxDuration, Millisecond, C_uint.
  intros H1 H2.
  rewrite Z.quot_div_nonneg in * by lia.
  assert (Hq : 0 < (d - now) / 1000000) by (apply Z.div_str_pos; lia).
  pose proof (Z.mul_div_le (d - now) 1000000 ltac:(lia)) as Hle.
  pose proof (Z.mod_pos_bound (d - now) 1000000 ltac:(lia)) as Hm.
  pose proof (Z.div_mod (d - now) 1000000 ltac:(lia)) as Hdm.
  assert (d - now < 2 ^ 63 - 1) by lia.
  repeat split; try lia.
  - destruct (Z.ltb_spec (d - now) (- 2 ^ 63)); [lia|].
    destruct (Z.ltb_spec (2 ^ 63 - 1) (d - now)); lia.
  - apply Z.mod_small; lia.
Qed.

Section Transfers.
Context {K : sp_enum} {P : provider}.

Lemma nonempty_first_elem (b : slice) (m : machine) :
  elems b <> [] -> first_elem b m = Return tt m.
Proof. unfold first_elem; destruct (elems b); [congruence|reflexivity]. Qed.

Lemma deadline_set (t : Time) : t <> 0 -> IsZero t = false.
Proof. intros H; unfold IsZero; apply Z.eqb_neq; exact H. Qed.

(** What [Read] does once its branch is known. *)
Lemma Read_unset (m : machine) (now : Time) (b : slice) :
  readDeadline (port m) = 0 ->
  Read now b m = invoke (os_File_Read (f (port m)) (len b)) m.
Proof. intros H; unfold Read, bind, self; cbn; rewrite H; reflexivity. Qed.

Lemma Read_immediate (m : machine) (now : Time) (b : slice) :
  readDeadline (port m) <> 0 ->
  readDeadline (port m) - now < Millisecond ->
  elems b <> [] ->
  Read now b m =
  bind (invoke (sp_nonblocking_read (p (port m)) (len b)))
       (fun n => if n <? 0 then ret (0, errmsg n)
                 else bind (SetLen b n) (fun _ => ret (n, None))) m.
Proof.
  intros H0 H1 Hb; unfold Read, bind at 1 2, self; cbn.
  rewrite (deadline_set _ H0).
  pose proof (millis_nonpos _ _ H1) as Hm; apply Z.leb_le in Hm; rewrite Hm.
  unfold bind; rewrite (nonempty_first_elem _ _ Hb); reflexivity.
Qed.

Lemma Read_bounded (m : machine) (now : Time) (b : slice) :
  readDeadline (port m) <> 0 ->
  Millisecond <= readDeadline (port m) - now ->
  Z.quot (readDeadline (port m) - now) Millisecond < 2 ^ 32 ->
  elems b <> [] ->
  Read now b m =
  bind (invoke (sp_blocking_read (p (port m)) (len b)
                  (Z.quot (readDeadline (port m) - now) Millisecond)))
       (fun n => if n <? 0 then ret (0, errmsg n)
                 else bind (SetLen b n) (fun _ => ret (n, None))) m.
Proof.
  intros H0 H1 H2 Hb; unfold Read, bind at 1 2, self; cbn.
  rewrite (deadline_set _ H0).
  destruct (millis_pos _ _ H1 H2) as (-> & Hq & -> & _).
  apply Z.leb_gt in Hq; rewrite Hq.
  unfold bind; rewrite (nonempty_first_elem _ _ Hb); reflexivity.
Qed.

(** The same for [Write]. *)
Lemma Write_unset (m : machine) (now : Time) (b : slice) :
  writeDeadline (port m) = 0 ->
  Write now b m = invoke (os_File_Write (f (port m)) (elems b)) m.
Proof. intros H; unfold Write, bind, self; cbn; rewrite H; reflexivity. Qed.

Lemma Write_immediate (m : machine) (now : Time) (b : slice) :
  writeDeadline (port m) <> 0 ->
  writeDeadline (port m) - now < Millisecond ->
  elems b <> [] ->
  Write now b m =
  bind (invoke (sp_nonblocking_write (p (port m)) (elems b)))
       (fun n => if n <? 0 then ret (0, errmsg n) else ret (n, None)) m.
Proof.
  intros H0 H1 Hb; unfold Write, bind at 1 2, self; cbn.
  rewrite (deadline_set _ H0).
  pose proof (millis_nonpos _ _ H1) as Hm; apply Z.leb_le in Hm; rewrite Hm.
  unfold bind; rewrite (nonempty_first_elem _ _ Hb); reflexivity.
Qed.

Lemma Write_bounded (m : machine) (now : Time) (b : slice) :
  writeDeadline (port m) <> 0 ->
  Millisecond <= writeDeadline (port m) - now ->
  Z.quot (writeDeadline (port m) - now) Millisecond < 2 ^ 32 ->
  elems b <> [] ->
  Write now b m =
  bind (invoke (sp_blocking_write (p (port m)) (elems b)
                  (Z.quot (writeDeadline (port m) - now) Millisecond)))
       (fun n => if n <? 0 then ret (0, errmsg n) else ret (n, None)) m.
Proof.
  intros H0 H1 H2 Hb; unfold Write, bind at 1 2, self; cbn.
  rewrite (deadline_set _ H0).
  destruct (millis_pos _ _ H1 H2) as (-> & Hq & -> & _).
  apply Z.leb_gt in Hq; rewrite Hq.
  unfold bind; rewrite (nonempty_first_elem _ _ Hb); reflexivity.
Qed.

Ltac after_call :=
  unfold bind, invoke, ret, SetLen, panic; cbn; answers;
  repeat match goal with
         | |- context [if ?x then _ else _] => destruct x; cbn
         end;
  traces.

(** C1, amended: which transfer [Read] and [Write] issue.  Deadline unset:
    the unbounded transfer on the file.  Deadline set and less than one
    millisecond left (the whole milliseconds left are zero or negative): the
    provider's non-blocking transfer.  Deadline set and a millisecond or
    more left: the provider's blocking transfer, whose timeout is the time
    left in whole milliseconds, rounded down.  The last two are for a buffer
    with at least one element, the last for a timeout below [2 ^ 32]. *)
Theorem transfer_policy (m : machine) (now : Time) (b : slice) :
  let rd := readDeadline (port m) in
  let wd := writeDeadline (port m) in
  (rd = 0 ->
   calls_of (Read now b) m = [Called (os_File_Read (f (port m)) (len b))]) /\
  (rd <> 0 -> rd - now < Millisecond -> elems b <> [] ->
   calls_of (Read now b) m
   = [Called (sp_nonblocking_read (p (port m)) (len b))]) /\
  (rd <> 0 -> Millisecond <= rd - now ->
   Z.quot (rd - now) Millisecond < 2 ^ 32 -> elems b <> [] ->
   calls_of (Read now b) m
   = [Called (sp_blocking_read (p (port m)) (len b)
                (Z.quot (rd - now) Millisecond))] /\
   Z.quot (rd - now) Millisecond * Millisecond <= rd - now) /\
  (wd = 0 ->
   calls_of (Write now b) m = [Called (os_File_Write (f (port m)) (elems b))]) /\
  (wd <> 0 -> wd - now < Millisecond -> elems b <> [] ->
   calls_of (Write now b) m
   = [Called (sp_nonblocking_write (p (port m)) (elems b))]) /\
  (wd <> 0 -> Millisecond <= wd - now ->
   Z.quot (wd - now) Millisecond < 2 ^ 32 -> elems b <> [] ->
   calls_of (Write now b) m
   = [Called (sp_blocking_write (p (port m)) (elems b)
                (Z.quot (wd - now) Millisecond))] /\
   Z.quot (wd - now) Millisecond * Millisecond <= wd - now).
Proof.
  cbv zeta; repeat split; intros; unfold calls_of.
  - rewrite Read_unset by assumption; after_call; reflexivity.
  - rewrite Read_immediate by assumption; after_call; reflexivity.
  - rewrite Read_bounded by assumption; after_call; reflexivity.
  - apply millis_pos; assumption.
  - rewrite Write_unset by assumption; after_call; reflexivity.
  - rewrite Write_immediate by assumption; after_call; reflexivity.
  - rewrite Write_bounded by assumption; after_call; reflexivity.
  - apply millis_pos; assumption.
Qed.

(** C5: with the deadline set and not after the current time, and a buffer
    the provider can be handed, a provider answer of zero bytes makes [Read]
    and [Write] return zero bytes and a nil error. *)
Theorem past_deadline_zero_bytes_is_success
  (m : machine) (now : Time) (b : slice) :
  (readDeadline (port m) <> 0 -> readDeadline (port m) <= now ->
   elems b <> [] ->
   fst (answer Z (sp_nonblocking_read (p (port m)) (len b)) (env m)) = 0 ->
   returned (Read now b m) = Some (0, None)) /\
  (writeDeadline (port m) <> 0 -> writeDeadline (port m) <= now ->
   elems b <> [] ->
   fst (answer Z (sp_nonblocking_write (p (port m)) (elems b)) (env m)) = 0 ->
   returned (Write now b m) = Some (0, None)).
Proof.
  split; intros H0 H1 Hb Hz.
  - rewrite Read_immediate by (try assumption; unfold Millisecond; lia).
    unfold bind, invoke, ret, SetLen, panic; cbn.
    destruct (answer Z _ (env m)) as [n w]; cbn in *; subst n; cbn.
    assert (Hc : (cap b <? 0) = false)
      by (apply Z.ltb_ge; unfold cap, len; lia).
    rewrite Hc; reflexivity.
  - rewrite Write_immediate by (try assumption; unfold Millisecond; lia).
    unfold bind, invoke, ret; cbn.
    destruct (answer Z _ (env m)) as [n w]; cbn in *; subst n; reflexivity.
Qed.

(** C10: once a read (write) deadline other than the zero time is set,
    [Read] ([Write]) of a buffer without elements panics before any provider
    call is made; with no deadline set the same call returns. *)
Theorem empty_buffer_with_deadline_panics
  (m : machine) (t now : Time) (b : slice) :
  t <> 0 -> elems b = [] ->
  panicked (and_then (SetReadDeadline t) (Read now b) m) = true /\
  calls_of (and_then (SetReadDeadline t) (Read now b)) m = [] /\
  panicked (and_then (SetWriteDeadline t) (Write now b) m) = true /\
  calls_of (and_then (SetWriteDeadline t) (Write now b)) m = [] /\
  panicked (and_then (SetReadDeadline 0) (Read now b) m) = false /\
  panicked (and_then (SetWriteDeadline 0) (Write now b) m) = false.
Proof.
  intros Ht Hb.
  run_with ltac:(unfold SetReadDeadline, SetWriteDeadline, Read, Write,
                  first_elem).
  rewrite (deadline_set _ Ht), Hb; cbn.
  repeat split;
    try (destruct (_ <=? 0); cbn; traces; reflexivity);
    answers; reflexivity.
Qed.

End Transfers.

(** C1, as stated, fails: half a millisecond before the deadline the
    specification's policy asks for a bounded transfer (with a timeout of
    zero milliseconds), and [Read] and [Write] issue the non-blocking
    transfer. *)
Lemma inside_last_millisecond_is_nonblocking :
  let now := 1000000000 in
  let m := opened_until 1000500000 at_115200 in
  policy_spec (readDeadline (port m)) now = Bounded 0 /\
  map transfer_of (calls_of (on_reference (fun K P => Read now one_byte)) m)
  = [Some Immediate] /\
  policy_spec (writeDeadline (port m)) now = Bounded 0 /\
  map transfer_of (calls_of (on_reference (fun K P => Write now one_byte)) m)
  = [Some Immediate].
Proof. vm_compute. repeat split. Qed.

(** [transfer_policy] three and a half milliseconds before the deadline: a
    blocking read with a timeout of 3. *)
Lemma transfer_policy_witness :
  let now := 1000000000 in
  let m := opened_until 1003500000 at_115200 in
  (readDeadline (port m) <> 0 /\
   Millisecond <= readDeadline (port m) - now /\
   Z.quot (readDeadline (port m) - now) Millisecond < 2 ^ 32 /\
   elems one_byte <> []) /\
  calls_of (@Read libserialport_h reference now one_byte) m
  = [Called (sp_blocking_read 1 1 3)].
Proof.
  cbv zeta.
  assert (H : readDeadline (port (opened_until 1003500000 at_115200)) <> 0 /\
              Millisecond
              <= readDeadline (port (opened_until 1003500000 at_115200))
                 - 1000000000 /\
              Z.quot (readDeadline (port (opened_until 1003500000 at_115200))
                      - 1000000000) Millisecond < 2 ^ 32 /\
              elems one_byte <> [])
    by (repeat split; vm_compute; discriminate).
  split; [exact H|].
  destruct H as (H0 & H1 & H2 & Hb).
  destruct (@transfer_policy libserialport_h reference
              (opened_until 1003500000 at_115200) 1000000000 one_byte)
    as (_ & _ & Hbounded & _).
  exact (proj1 (Hbounded H0 H1 H2 Hb)).
Defined.

(** [past_deadline_zero_bytes_is_success] a second after the deadline, with
    nothing waiting on the device. *)
Lemma past_deadline_zero_bytes_is_success_witness :
  let now := 2000000000 in
  let m := opened_until 1000000000 at_115200 in
  (readDeadline (port m) <> 0 /\ readDeadline (port m) <= now /\
   elems one_byte <> [] /\
   fst (answer Z (sp_nonblocking_read (p (port m)) (len one_byte)) (env m)) = 0) /\
  returned (@Read libserialport_h reference now one_byte m) = Some (0, None).
Proof.
  cbv zeta.
  assert (H : readDeadline (port (opened_until 1000000000 at_115200)) <> 0 /\
              readDeadline (port (opened_until 1000000000 at_115200))
              <= 2000000000 /\
              elems one_byte <> [] /\
              fst (answer Z
                     (sp_nonblocking_read
                        (p (port (opened_until 1000000000 at_115200)))
                        (len one_byte))
                     (env (opened_until 1000000000 at_115200))) = 0)
    by (repeat split; vm_compute; try discriminate; reflexivity).
  split; [exact H|].
  destruct H as (H0 & H1 & Hb & Hz).
  exact (proj1 (@past_deadline_zero_bytes_is_success libserialport_h reference
                  (opened_until 1000000000 at_115200) 2000000000 one_byte)
           H0 H1 Hb Hz).
Defined.

(** [empty_buffer_with_deadline_panics] on an opened port of the reference
    provider. *)
Lemma empty_buffer_with_deadline_panics_witness :
  let m := opened_with Options.zero at_115200 in
  (1000000000 <> 0 /\ elems no_bytes = []) /\
  panicked (and_then (@SetReadDeadline reference 1000000000)
              (@Read libserialport_h reference 2000000000 no_bytes) m) = true.
Proof.
  cbv zeta.
  split; [split; [discriminate|reflexivity]|].
  exact (proj1 (@empty_buffer_with_deadline_panics libserialport_h reference
                  (opened_with Options.zero at_115200) 1000000000 2000000000
                  no_bytes ltac:(discriminate) eq_refl)).
Defined.

(** * More properties of the binding *)

(** ** Open, continued *)

Section OpenOutcomes.
Context {K : sp_enum} {P : provider}.

Ltac unfold_open :=
  unfold open, Open, Close, SetBaudrate, SetDataBits, SetStopBits, SetParity,
    SetRTS, SetDTR, SetFlowControl, setter, ApplyConfig, Name.

(** Every path through [open]: the provider's open refused; the
    configuration not read; the rest, with or without a port handle. *)
Ltac open_cases m opt :=
  run_with ltac:(unfold_open);
  destruct (answer Z (sp_open (p (port m)) (C_uint (open_mode opt))) (env m))
    as [r0 w0] eqn:E0; cbn;
  destruct (errmsg r0) as [e0|] eqn:H0; cbn;
  [|destruct (answer Z (sp_get_config (p (port m)) (c (port m))) w0)
      as [r1 w1] eqn:E1; cbn;
    destruct (errmsg r1) as [e1|] eqn:H1; cbn;
    [answers
    |destruct (Options.Baudrate opt =? 0); cbn; answers;
     (destruct (Options.DataBits opt =? 0); cbn; answers;
      destruct (Options.StopBits opt =? 0); cbn; answers;
      match goal with |- context [errmsg ?r] => destruct (errmsg r) eqn:? end;
      cbn; answers)]].

(** X1: [open] always returns.  When it returns nil the port is marked
    opened, no provider close was called and the port and configuration
    pointers are the ones it started with.  When the provider's open is
    refused the Port object is left exactly as it was. *)
Theorem open_success_marks_opened (m : machine) (opt : Options.t) :
  panicked (open opt m) = false /\
  (returned (open opt m) = Some None ->
   opened (port (final (open opt m))) = true /\
   existsb is_close (calls_of (open opt) m) = false /\
   p (port (final (open opt m))) = p (port m) /\
   c (port (final (open opt m))) = c (port m)) /\
  (errmsg (fst (answer Z (sp_open (p (port m)) (C_uint (open_mode opt)))
                  (env m))) <> None ->
   port (final (open opt m)) = port m).
Proof.
  split; [|split].
  - open_cases m opt; reflexivity.
  - open_cases m opt; intros H; try discriminate H; traces; repeat split.
  - open_cases m opt; intros H; try reflexivity; exfalso; apply H; reflexivity.
Qed.

(** Name the provider's answers from the inside out: only an answer given
    in a world that is already named. *)
Ltac inner_answers :=
  repeat match goal with
         | |- context [answer ?R ?e ?w] =>
             is_var w;
             let r := fresh "r" in
             let w' := fresh "w" in
             let E := fresh "E" in
             destruct (answer R e w) as [r w'] eqn:E;
             match type of r with
             | prod _ _ => destruct r as [? ?]
             | _ => idtac
             end; cbn in *
         end.

(** X2: the result of [open] is the first error among the answers to
    [sp_open], [sp_get_config] and [sp_get_port_handle], and nil when none
    of the three is an error: what the setters and [ApplyConfig] answer in
    between ([configure]) never enters it.  When the result is an error,
    either [sp_open] is the only call, or the call just before the closing
    one is [sp_get_config] or [sp_get_port_handle]. *)
Theorem open_error_source (m : machine) (opt : Options.t) :
  let a0 := answer Z (sp_open (p (port m)) (C_uint (open_mode opt))) (env m) in
  let a1 := answer Z (sp_get_config (p (port m)) (c (port m))) (snd a0) in
  let m2 := final (configure opt
                     {| port := port m; env := snd a1; trace := trace m |}) in
  let a2 := answer (Z * option Z) (sp_get_port_handle (p (port m))) (env m2) in
  let calls := calls_of (open opt) m in
  returned (open opt m)
  = Some (first_error (fst a0) (fst a1) (fst (fst a2))) /\
  (forall e : error,
   returned (open opt m) = Some (Some e) ->
   calls = [Called (sp_open (p (port m)) (C_uint (open_mode opt)))] \/
   nth_error (rev calls) 1
   = Some (Called (sp_get_config (p (port m)) (c (port m)))) \/
   nth_error (rev calls) 1 = Some (Called (sp_get_port_handle (p (port m))))).
Proof.
  cbv zeta; unfold first_error.
  run_with ltac:(unfold configure; unfold_open).
  destruct (answer Z (sp_open (p (port m)) (C_uint (open_mode opt))) (env m))
    as [r0 w0] eqn:E0; cbn.
  destruct (errmsg r0) as [e0|] eqn:H0; cbn.
  { split; [reflexivity|intros; left; traces; reflexivity]. }
  destruct (answer Z (sp_get_config (p (port m)) (c (port m))) w0)
    as [r1 w1] eqn:E1; cbn.
  destruct (errmsg r1) as [e1|] eqn:H1; cbn.
  { answers; split; [reflexivity|intros; right; left; traces; reflexivity]. }
  destruct (Options.Baudrate opt =? 0); cbn; inner_answers;
  (destruct (Options.DataBits opt =? 0); cbn; inner_answers;
   destruct (Options.StopBits opt =? 0); cbn; inner_answers;
   match goal with |- context [errmsg ?r] => destruct (errmsg r) eqn:? end;
   cbn; inner_answers;
   (split; [reflexivity|intros ? Hr; try discriminate Hr; right; right;
                        traces; reflexivity])).
Qed.

(** [open] leaves the deadlines alone. *)
Lemma open_keeps_deadlines (m : machine) (opt : Options.t) :
  readDeadline (port (final (open opt m))) = readDeadline (port m) /\
  writeDeadline (port (final (open opt m))) = writeDeadline (port m).
Proof. open_cases m opt; split; reflexivity. Qed.

(** X3: [ApplyRawConfig] is its five calls made in order up to the first
    whose answer [errmsg] maps to an error, which it returns ([until_error]):
    data bits 8, parity none, stop bits 1, flow control none,
    [sp_set_config].  So its calls are a non-empty prefix of the five, the
    configuration is applied only when all four setters returned nil, and
    the Port object is not changed. *)
Theorem ApplyRawConfig_stops_at_first_error (m : machine) :
  let calls := calls_of ApplyRawConfig m in
  ApplyRawConfig m = until_error (raw_calls (port m)) m /\
  raw_sequence (port m) = map (@Called Z) (raw_calls (port m)) /\
  firstn (List.length calls) (raw_sequence (port m)) = calls /\
  calls <> [] /\
  (returned (ApplyRawConfig m) = Some None -> calls = raw_sequence (port m)) /\
  (existsb on_hardware calls = true -> calls = raw_sequence (port m)) /\
  port (final (ApplyRawConfig m)) = port m.
Proof.
  run_with ltac:(unfold ApplyRawConfig, SetDataBits, SetParity, SetStopBits,
                  SetFlowControl, setter, raw_sequence, raw_calls;
                 cbn [until_error]).
  repeat (inner_answers; answers;
          match goal with
          | |- context [errmsg ?r] => destruct (errmsg r) eqn:?; cbn
          end);
    inner_answers; answers; traces; repeat split; try discriminate;
    reflexivity.
Qed.

End OpenOutcomes.

(** [open_success_marks_opened] for [Open(Options{})] on the reference
    provider. *)
Lemma open_success_marks_opened_witness :
  returned (@open libserialport_h reference Options.zero (created at_115200))
  = Some None /\
  opened (port (final (@open libserialport_h reference Options.zero
                         (created at_115200)))) = true.
Proof.
  split; [reflexivity|].
  exact (proj1 (proj1 (proj2 (@open_success_marks_opened libserialport_h
                                reference (created at_115200) Options.zero))
                  eq_refl)).
Defined.

(** [open_error_source] on a port without configuration. *)
Lemma open_error_source_witness :
  returned (@open libserialport_h reference Options.zero (bare at_115200))
  = Some (Some InvalidArgumentsError) /\
  nth_error
    (rev (calls_of (@open libserialport_h reference Options.zero)
            (bare at_115200))) 1
  = Some (Called (sp_get_config 1 0)).
Proof.
  split; [reflexivity|].
  destruct (proj2 (@open_error_source libserialport_h reference
                     (bare at_115200) Options.zero)
              InvalidArgumentsError eq_refl)
    as [H|[H|H]]; [discriminate H | exact H | discriminate H].
Defined.

(** [ApplyRawConfig_stops_at_first_error] on an opened port of the reference
    provider. *)
Lemma ApplyRawConfig_stops_at_first_error_witness :
  let m := opened_with Options.zero at_115200 in
  returned (@ApplyRawConfig libserialport_h reference m) = Some None /\
  calls_of (@ApplyRawConfig libserialport_h reference) m
  = @raw_sequence libserialport_h (port m).
Proof.
  cbv zeta; split; [reflexivity|].
  destruct (@ApplyRawConfig_stops_at_first_error libserialport_h reference
              (opened_with Options.zero at_115200)) as (_ & _ & _ & _ & H & _).
  exact (H eq_refl).
Defined.

(** ** Deadlines, results and accessors *)

Section SessionFacts.
Context {K : sp_enum} {P : provider}.

Ltac io_cases m b :=
  run_with ltac:(unfold SetReadDeadline, SetWriteDeadline, SetDeadline, Read,
                  Write, first_elem, SetLen);
  repeat match goal with
         | |- context [IsZero ?t] => destruct (IsZero t) eqn:?; cbn
         | |- context [Z.leb ?a 0] => destruct (Z.leb a 0) eqn:?; cbn
         end;
  destruct (elems b) eqn:?; cbn; answers;
  repeat match goal with
         | |- context [if ?x then _ else _] => destruct x eqn:?; cbn
         end.

(** X4: the two deadlines are independent.  Setting the read deadline
    changes neither the calls nor the result of a following [Write], and the
    other way round; [SetDeadline] is [SetReadDeadline] followed by
    [SetWriteDeadline], makes no provider call and returns nil. *)
Theorem deadlines_are_independent (m : machine) (t now : Time) (b : slice) :
  returned (Write now b (final (SetReadDeadline t m)))
  = returned (Write now b m) /\
  calls_of (Write now b) (final (SetReadDeadline t m))
  = calls_of (Write now b) m /\
  returned (Read now b (final (SetWriteDeadline t m)))
  = returned (Read now b m) /\
  calls_of (Read now b) (final (SetWriteDeadline t m))
  = calls_of (Read now b) m /\
  SetDeadline t m = and_then (SetReadDeadline t) (SetWriteDeadline t) m /\
  calls_of (SetDeadline t) m = [] /\
  returned (SetDeadline t m) = Some None.
Proof.
  repeat split; try (io_cases m b; traces; reflexivity).
  all: run_with ltac:(unfold SetReadDeadline, SetWriteDeadline, SetDeadline);
       traces; reflexivity.
Qed.

(** X5: with a deadline set, what [Read] and [Write] return is a count that
    is never negative, zero whenever the error is not nil, and for [Read]
    never above the capacity of the buffer. *)
Theorem deadline_transfer_result
  (m : machine) (now : Time) (b : slice) (n : Z) (err : option error) :
  (readDeadline (port m) <> 0 ->
   returned (Read now b m) = Some (n, err) ->
   0 <= n <= cap b /\ (err <> None -> n = 0)) /\
  (writeDeadline (port m) <> 0 ->
   returned (Write now b m) = Some (n, err) ->
   0 <= n /\ (err <> None -> n = 0)).
Proof.
  assert (Hcap : 0 <= cap b) by (unfold cap, len; lia).
  split; intros H0; apply Z.eqb_neq in H0.
  - run_with ltac:(unfold Read, first_elem, SetLen, IsZero); rewrite H0; cbn.
    destruct (_ <=? 0); cbn; destruct (elems b); cbn; try discriminate;
      answers; destruct (Z.ltb_spec r 0); cbn;
      try (destruct (Z.ltb_spec (cap b) r); cbn); try discriminate;
      intros [= <- <-]; (split; [lia|]); intros; congruence.
  - run_with ltac:(unfold Write, first_elem, IsZero); rewrite H0; cbn.
    destruct (_ <=? 0); cbn; destruct (elems b); cbn; try discriminate;
      answers; destruct (Z.ltb_spec r 0); cbn;
      intros [= <- <-]; (split; [lia|]); intros; congruence.
Qed.

(** X6: each of the nine getters makes exactly one call, the accessor of its
    own field on the configuration [p.c], never a call on the port.  It
    returns 0 and the error when [errmsg] maps the answer to one, and
    otherwise the value the accessor stored (0 if it stored none) with nil;
    it never panics and leaves the Port object unchanged. *)
Theorem getters_read_configuration_only
  (get : M (Z * option error)) (fld : field) (m : machine) :
  In (get, fld) getter_fields ->
  let a := fst (answer (Z * option Z) (sp_get_config_ fld (c (port m)))
                  (env m)) in
  calls_of get m = [Called (sp_get_config_ fld (c (port m)))] /\
  returned (get m)
  = Some (match errmsg (fst a) with
          | Some e => (0, Some e)
          | None => (deref 0 (snd a), None)
          end) /\
  port (final (get m)) = port m /\
  List.length (calls_of get m) = 1%nat /\
  existsb on_hardware (calls_of get m) = false /\
  panicked (get m) = false /\
  (forall (v : Z) (e : error), returned (get m) = Some (v, Some e) -> v = 0).
Proof.
  unfold getter_fields; cbn; intros H.
  repeat (destruct H as [H|H];
          [injection H as <- <-;
           run_with ltac:(unfold Baudrate, DataBits, Parity, StopBits, RTS, CTS,
                           DTR, DSR, XonXoff, getter);
           answers; destruct (errmsg _); cbn; traces; repeat split;
           intros ? ? E'; inversion E'; reflexivity|]).
  destruct H.
Qed.

(** X7: nothing guards a Port that was freed.  [free] leaves the object with
    nil port and configuration pointers, not opened, and all else as it was;
    afterwards [Close], [ApplyConfig], the getters and the setters hand those
    nil pointers to the provider, and [Read] without a deadline still reads
    the file the port was opened with. *)
Theorem use_after_free
  (m : machine) (fld : field) (v : Z) (now : Time) (b : slice) :
  let m' := final (free m) in
  port m' = set_c 0 (set_p 0 (set_opened false (port m))) /\
  calls_of Close m' = [Called (sp_close 0)] /\
  calls_of ApplyConfig m' = [Called (sp_set_config 0 0)] /\
  calls_of (getter fld) m' = [Called (sp_get_config_ fld 0)] /\
  calls_of (setter fld v) m' = [Called (sp_set_config_ fld 0 (C_int v))] /\
  (readDeadline (port m) = 0 ->
   calls_of (Read now b) m' = [Called (os_File_Read (f (port m)) (len b))]).
Proof.
  cbv zeta.
  assert (E : port (final (free m))
              = set_c 0 (set_p 0 (set_opened false (port m)))).
  { run_with ltac:(unfold free).
    destruct (opened (port m)), (p (port m) =? 0), (c (port m) =? 0);
      cbn; answers; reflexivity. }
  split; [exact E|].
  remember (final (free m)) as m' eqn:Hm'; clear Hm'.
  repeat split; intros;
    run_with ltac:(unfold Close, ApplyConfig, getter, setter, Read);
    rewrite ?E; cbn; rewrite ?H; cbn; answers;
    try (destruct (errmsg _); cbn); traces; reflexivity.
Qed.

End SessionFacts.

(** [deadline_transfer_result] a second after the deadline, nothing waiting:
    zero bytes, no error. *)
Lemma deadline_transfer_result_witness :
  let m := opened_until 1000000000 at_115200 in
  readDeadline (port m) <> 0 /\
  returned (@Read libserialport_h reference 2000000000 one_byte m)
  = Some (0, None) /\
  0 <= 0 <= cap one_byte.
Proof.
  cbv zeta.
  assert (H0 : readDeadline (port (opened_until 1000000000 at_115200)) <> 0)
    by (vm_compute; discriminate).
  split; [exact H0|]. split; [reflexivity|].
  exact (proj1 (proj1 (@deadline_transfer_result libserialport_h reference
                         (opened_until 1000000000 at_115200) 2000000000
                         one_byte 0 None) H0 eq_refl)).
Defined.

(** [getters_read_configuration_only] for [StopBits] on an opened port. *)
Lemma getters_read_configuration_only_witness :
  In (@StopBits libserialport_h reference, stopbits)
     (@getter_fields libserialport_h reference) /\
  calls_of (@StopBits libserialport_h reference)
    (opened_with Options.zero at_115200)
  = [Called (sp_get_config_ stopbits 2)].
Proof.
  assert (H : In (@StopBits libserialport_h reference, stopbits)
                 (@getter_fields libserialport_h reference))
    by (do 3 right; left; reflexivity).
  split; [exact H|].
  exact (proj1 (@getters_read_configuration_only libserialport_h reference
                  StopBits stopbits (opened_with Options.zero at_115200) H)).
Defined.

(** [use_after_free] on a port that was opened, closed and freed. *)
Lemma use_after_free_witness :
  let m := closed_after Options.zero at_115200 in
  readDeadline (port m) = 0 /\
  calls_of (@Read libserialport_h reference 5 one_byte)
    (final (@free reference m))
  = [Called (os_File_Read 4 1)].
Proof.
  cbv zeta; split; [reflexivity|].
  destruct (@use_after_free libserialport_h reference
              (closed_after Options.zero at_115200) bits 0 5 one_byte)
    as (_ & _ & _ & _ & _ & H).
  exact (H eq_refl).
Defined.

(** ** The earlier binding *)

Section Earlier.
Context {K : sp_enum} {N : sp_pins} {P : provider}.

(** X8: [OpenWithMode] always returns, and its result is the first error
    among the answers to [sp_open], [sp_get_config] and
    [sp_get_port_handle], nil when there is none.  Its calls are exactly:
    [sp_open] alone when that fails; then [sp_get_config] (which fills [p.c]
    from the device) and the provider's close when that fails; then
    [sp_get_port_handle] and the close when that fails; else the port name
    and [os.NewFile].  It makes no setting call (no setter,
    [sp_set_baudrate] or [sp_set_config]).  When it returns nil the port is marked opened and no
    close was called; when it returns an error after a successful [sp_open],
    the close is its last call, made once, and the port is left not
    opened. *)
Theorem serialport_OpenWithMode_outcomes (m : machine) (flags : Z) :
  let a0 := answer Z (sp_open (p (port m)) (C_uint flags)) (env m) in
  let a1 := answer Z (sp_get_config (p (port m)) (c (port m))) (snd a0) in
  let a2 := answer (Z * option Z) (sp_get_port_handle (p (port m)))
              (snd a1) in
  let nm := fst (answer string (sp_get_port_name (p (port m))) (snd a2)) in
  let o := Called (sp_open (p (port m)) (C_uint flags)) in
  let g := Called (sp_get_config (p (port m)) (c (port m))) in
  let h := Called (sp_get_port_handle (p (port m))) in
  let x := Called (sp_close (p (port m))) in
  let calls := calls_of (serialport.OpenWithMode flags) m in
  panicked (serialport.OpenWithMode flags m) = false /\
  returned (serialport.OpenWithMode flags m)
  = Some (first_error (fst a0) (fst a1) (fst (fst a2))) /\
  calls
  = match errmsg (fst a0), errmsg (fst a1), errmsg (fst (fst a2)) with
    | Some _, _, _ => [o]
    | None, Some _, _ => [o; g; x]
    | None, None, Some _ => [o; g; h; x]
    | None, None, None =>
        [o; g; h; Called (sp_get_port_name (p (port m)));
         Called (os_NewFile (deref (fd (port m)) (snd (fst a2))) nm)]
    end /\
  existsb configures calls = false /\
  (returned (serialport.OpenWithMode flags m) = Some None ->
   opened (port (final (serialport.OpenWithMode flags m))) = true /\
   existsb is_close calls = false) /\
  (forall e : error,
   returned (serialport.OpenWithMode flags m) = Some (Some e) ->
   calls = [o] \/
   (last calls o = x /\
    List.length (filter is_close calls) = 1%nat /\
    opened (port (final (serialport.OpenWithMode flags m))) = false)).
Proof.
  cbv zeta; unfold first_error.
  run_with ltac:(unfold serialport.OpenWithMode, Close, Name).
  destruct (answer Z (sp_open (p (port m)) (C_uint flags)) (env m))
    as [r0 w0] eqn:E0; cbn.
  destruct (errmsg r0) as [e0|] eqn:H0; cbn.
  { traces. repeat split; try discriminate. intros; left; reflexivity. }
  destruct (answer Z (sp_get_config (p (port m)) (c (port m))) w0)
    as [r1 w1] eqn:E1; cbn.
  destruct (errmsg r1) as [e1|] eqn:H1; cbn.
  { answers. traces. repeat split; try discriminate.
    intros; right; repeat split. }
  destruct (answer (Z * option Z) (sp_get_port_handle (p (port m))) w1)
    as [[r2 o2] w2] eqn:E2; cbn.
  destruct (errmsg r2) as [e2|] eqn:H2; cbn; answers; traces; repeat split;
    try discriminate; intros; right; repeat split.
Qed.

(** X9: the earlier [ApplyRawConfig] is its ten calls made in order up to
    the first whose answer [errmsg] maps to an error, which it returns
    ([until_error]): data bits, parity, stop bits, RTS off, CTS ignored, DTR
    off, DSR ignored, XON/XOFF disabled, flow control none, [sp_set_config].
    So its calls are a non-empty prefix of the ten and the configuration is
    applied only when all nine setters returned nil. *)
Theorem serialport_ApplyRawConfig_stops_at_first_error (m : machine) :
  let calls := calls_of serialport.ApplyRawConfig m in
  serialport.ApplyRawConfig m = until_error (earlier_raw_calls (port m)) m /\
  serialport.raw_sequence (port m)
  = map (@Called Z) (earlier_raw_calls (port m)) /\
  firstn (List.length calls) (serialport.raw_sequence (port m)) = calls /\
  calls <> [] /\
  (returned (serialport.ApplyRawConfig m) = Some None ->
   calls = serialport.raw_sequence (port m)) /\
  (existsb on_hardware calls = true ->
   calls = serialport.raw_sequence (port m)) /\
  port (final (serialport.ApplyRawConfig m)) = port m.
Proof.
  run_with ltac:(unfold serialport.ApplyRawConfig, SetDataBits, SetParity,
                  SetStopBits, SetRTS, SetCTS, SetDTR, SetDSR, SetXonXoff,
                  SetFlowControl, setter, serialport.raw_sequence,
                  earlier_raw_calls; cbn [until_error]).
  repeat (answers;
          match goal with
          | |- context [errmsg ?r] => destruct (errmsg r) eqn:?; cbn
          end);
    answers; traces; repeat split; try discriminate; reflexivity.
Qed.

(** With no deadline set, [Read] and [Write] are the earlier [Read] and
    [Write]: the transfer on the file and nothing else, also for a buffer
    without elements. *)
Theorem without_deadline_as_earlier (m : machine) (now : Time) (b : slice) :
  (readDeadline (port m) = 0 -> Read now b m = serialport.Read b m) /\
  (writeDeadline (port m) = 0 -> Write now b m = serialport.Write b m).
Proof.
  split; intros H;
    unfold Read, Write, serialport.Read, serialport.Write, bind, self; cbn;
    rewrite H; reflexivity.
Qed.

End Earlier.

(** [serialport_OpenWithMode_outcomes] for read/write on the reference
    provider. *)
Lemma serialport_OpenWithMode_outcomes_witness :
  returned (@serialport.OpenWithMode libserialport_h reference 3
              (created at_115200)) = Some None /\
  opened (port (final (@serialport.OpenWithMode libserialport_h reference 3
                         (created at_115200)))) = true.
Proof.
  split; [reflexivity|].
  destruct (@serialport_OpenWithMode_outcomes libserialport_h reference
              (created at_115200) 3) as (_ & _ & _ & _ & H & _).
  exact (proj1 (H eq_refl)).
Defined.

(** [serialport_ApplyRawConfig_stops_at_first_error] on an opened port. *)
Lemma serialport_ApplyRawConfig_stops_at_first_error_witness :
  let m := opened_with Options.zero at_115200 in
  returned (@serialport.ApplyRawConfig libserialport_h libserialport_pins
              reference m) = Some None /\
  calls_of (@serialport.ApplyRawConfig libserialport_h libserialport_pins
              reference) m
  = @serialport.raw_sequence libserialport_h libserialport_pins (port m).
Proof.
  cbv zeta; split; [reflexivity|].
  destruct (@serialport_ApplyRawConfig_stops_at_first_error libserialport_h
              libserialport_pins reference
              (opened_with Options.zero at_115200)) as (_ & _ & _ & _ & H & _).
  exact (H eq_refl).
Defined.

(** [without_deadline_as_earlier] on a port just opened. *)
Lemma without_deadline_as_earlier_witness :
  let m := opened_with Options.zero at_115200 in
  readDeadline (port m) = 0 /\
  @Read libserialport_h reference 5 no_bytes m
  = @serialport.Read reference no_bytes m.
Proof.
  cbv zeta; split; [reflexivity|].
  exact (proj1 (@without_deadline_as_earlier libserialport_h reference
                  (opened_with Options.zero at_115200) 5 no_bytes) eq_refl).
Defined.

(** ** The package-level functions *)

Section PackageFacts.
Context {K : sp_enum} {P : provider} {Q : registry P}.

(** [newSerialPort] returns, after one call, a port that is not opened and
    holds the pointer it was given. *)
Lemma newSerialPort_run (ptr : Z) (m : machine) :
  exists m' e,
    newSerialPort ptr m = Return e m' /\
    calls_of (newSerialPort ptr) m = [Called sp_new_config] /\
    unopened (port m') = true /\ p (port m') = ptr.
Proof.
  run_with ltac:(unfold newSerialPort); answers.
  eexists; eexists; split; [reflexivity|]. traces. repeat split.
Qed.

(** [open] returns, and a nil error comes with an opened port. *)
Lemma open_run (opt : Options.t) (m : machine) :
  exists m' e,
    open opt m = Return e m' /\
    (e = None -> opened (port m') = true) /\
    readDeadline (port m') = readDeadline (port m) /\
    writeDeadline (port m') = writeDeadline (port m).
Proof.
  run_with ltac:(unfold open, Open, Close, SetBaudrate, SetDataBits,
                  SetStopBits, SetParity, SetRTS, SetDTR, SetFlowControl,
                  setter, ApplyConfig, Name).
  destruct (answer Z (sp_open (p (port m)) (C_uint (open_mode opt))) (env m))
    as [r0 w0] eqn:E0; cbn.
  destruct (errmsg r0) as [e0|] eqn:H0; cbn.
  { eexists; eexists; split; [reflexivity|]; repeat split; discriminate. }
  destruct (answer Z (sp_get_config (p (port m)) (c (port m))) w0)
    as [r1 w1] eqn:E1; cbn.
  destruct (errmsg r1) as [e1|] eqn:H1; cbn.
  { answers; eexists; eexists; split; [reflexivity|]; repeat split;
      discriminate. }
  destruct (Options.Baudrate opt =? 0); cbn; answers;
  (destruct (Options.DataBits opt =? 0); cbn; answers;
   destruct (Options.StopBits opt =? 0); cbn; answers;
   match goal with |- context [errmsg ?r] => destruct (errmsg r) eqn:? end;
   cbn; answers; eexists; eexists; (split; [reflexivity|]); repeat split;
   discriminate).
Qed.

(** The loop of [ListPorts] returns; it never frees the port list; it gives
    as many ports as it was given pointers, all unopened, or an error. *)
Lemma populate_spec (pp : list Z) : forall s : session,
  exists l x s',
    populate pp s = Return2 x s' /\ log s' = log s ++ l /\
    existsb is_free_port_list l = false /\
    match x with
    | (Some ports, err) =>
        err = None /\ List.length ports = List.length pp /\
        forallb unopened ports = true
    | (None, err) => err <> None
    end.
Proof.
  induction pp as [|src rest IH]; intros s.
  - exists [], (Some [], None), s; cbn; unfold ret2.
    rewrite app_nil_r; repeat split.
  - cbn [populate]. unfold bind2 at 1, invoke2 at 1.
    destruct (answer2 _ (sp_copy_port src) (env (here s))) as [[r out] w].
    destruct (errmsg r) as [e|] eqn:Hr.
    { eexists [_], (None, Some e), _; unfold ret2; cbn.
      repeat split; discriminate. }
    unfold bind2 at 1, lift at 1; cbn [here log].
    destruct (newSerialPort_run (deref 0 out)
                {| port := port (here s); env := w; trace := trace (here s) |})
      as (m' & e & -> & -> & Hu & Hp).
    cbn [final].
    destruct e as [e|].
    { eexists [_; _], (None, Some e), _; unfold ret2; cbn.
      rewrite <- app_assoc; repeat split; discriminate. }
    unfold bind2 at 1, lift at 1, self at 1 2; cbn [final here log].
    unfold calls_of, self; cbn [final]. rewrite skipn_length_nil; cbn [map].
    rewrite app_nil_r.
    unfold bind2 at 1.
    match goal with |- context [populate rest ?s0] =>
      destruct (IH s0) as (l & x & s' & E & Hlog & Hl & Hx); rewrite E; clear E
    end.
    cbn [log] in Hlog.
    destruct x as [[ports|] err]; unfold ret2.
    + destruct Hx as (-> & Hlen & Hall).
      eexists (_ :: _ :: l), _, s'; split; [reflexivity|].
      rewrite Hlog, <- !app_assoc; cbn.
      rewrite Hl, Hlen, Hu, Hall; repeat split.
    + eexists (_ :: _ :: l), _, s'; split; [reflexivity|].
      rewrite Hlog, <- !app_assoc; cbn.
      rewrite Hl; repeat split; exact Hx.
Qed.

Lemma filter_free_port_list_none (l : list event2) :
  existsb is_free_port_list l = false -> filter is_free_port_list l = [].
Proof.
  induction l as [|a l IH]; cbn; [reflexivity|].
  destruct (is_free_port_list a); cbn; [discriminate|exact IH].
Qed.

(** X10: [ListPorts].  When [sp_list_ports] answers anything but [SP_OK],
    it is the only call and the result is nil with [errmsg] of the answer
    (nil when the code is not one [errmsg] names).  When it answers [SP_OK],
    the port list is freed exactly once, as the last call, on every way
    out: a slice with one unopened port for each array entry before the
    first null, an error with a nil slice, or the panic of an array with
    [1 << 15] entries or more. *)
Theorem ListPorts_outcomes (s : session) :
  let r := fst (fst (answer2 _ sp_list_ports (env (here s)))) in
  let arr := snd (fst (answer2 _ sp_list_ports (env (here s)))) in
  let calls := calls2 ListPorts s in
  if r =? SP_OK then
    List.length (filter is_free_port_list calls) = 1%nat /\
    last calls (Called2 sp_list_ports) = Called2 (sp_free_port_list arr) /\
    match returned2 (ListPorts s) with
    | Some (Some ports, err) =>
        err = None /\
        List.length ports = List.length (before_null arr) /\
        forallb unopened ports = true
    | Some (None, err) => err <> None
    | None => 2 ^ 15 <= Z.of_nat (List.length (before_null arr))
    end
  else
    calls = [Called2 sp_list_ports] /\
    returned2 (ListPorts s) = Some (None, errmsg r).
Proof.
  cbv zeta. unfold calls2, ListPorts, bind2, invoke2.
  destruct (answer2 _ sp_list_ports (env (here s))) as [[r arr] w]; cbn [fst snd].
  destruct (r =? SP_OK); cbn [negb].
  2:{ unfold ret2; cbn. rewrite skipn_length_app. split; reflexivity. }
  unfold defer.
  destruct (Z.leb_spec (2 ^ 15) (Z.of_nat (List.length (before_null arr)))).
  - unfold panic2.
    destruct (answer2 _ (sp_free_port_list arr) _) as [[] w']; cbn.
    rewrite <- app_assoc, skipn_length_app; cbn. repeat split. exact H.
  - match goal with |- context [populate ?pp ?s0] =>
      destruct (populate_spec pp s0) as (l & x & s' & E & Hlog & Hl & Hx);
      rewrite E; clear E
    end.
    cbn [log] in Hlog.
    destruct (answer2 _ (sp_free_port_list arr) _) as [[] w']; cbn [final2 log returned2].
    rewrite Hlog, <- !app_assoc, skipn_length_app.
    split; [|split].
    + rewrite !filter_app, (filter_free_port_list_none _ Hl); reflexivity.
    + rewrite app_assoc; apply last_last.
    + destruct x as [[ports|] err]; exact Hx.
Qed.

End PackageFacts.

Section PackageFacts2.
Context {K : sp_enum} {P : provider} {Q : registry P}.

Lemma lift_self (s : session) : lift self s = Return2 (port (here s)) s.
Proof.
  unfold lift, self, calls_of; cbn.
  rewrite skipn_length_nil, app_nil_r; destruct s; reflexivity.
Qed.

(** X11: [PortByName] and the package-level [Open] always return, a port
    exactly when the error is nil.  The port of [PortByName] is unopened;
    the port of [Open] is marked opened and has no deadline, so its first
    [Read] and [Write] are unbounded. *)
Theorem by_name_outcomes (name : string) (opt : Options.t) (s : session) :
  match returned2 (PortByName name s) with
  | Some (Some sp, err) => err = None /\ unopened sp = true
  | Some (None, err) => err <> None
  | None => False
  end /\
  match returned2 (OpenByName name opt s) with
  | Some (Some sp, err) =>
      err = None /\ opened sp = true /\
      readDeadline sp = 0 /\ writeDeadline sp = 0
  | Some (None, err) => err <> None
  | None => False
  end.
Proof.
  assert (HP : exists x s',
             PortByName name s = Return2 x s' /\
             match x with
             | (Some sp, err) =>
                 err = None /\ unopened sp = true /\ port (here s') = sp
             | (None, err) => err <> None
             end).
  { unfold PortByName, bind2, invoke2.
    destruct (answer2 _ (sp_get_port_by_name name) (env (here s)))
      as [[r out] w].
    destruct (errmsg r) as [e|].
    { eexists (None, Some e), _; split; [reflexivity|discriminate]. }
    unfold lift at 1; cbn [here log].
    destruct (newSerialPort_run (deref 0 out)
                {| port := port (here s); env := w; trace := trace (here s) |})
      as (m' & e & -> & -> & Hu & Hp).
    cbn [final]. destruct e as [e|].
    { eexists (None, Some e), _; split; [reflexivity|discriminate]. }
    rewrite lift_self; cbn [here].
    eexists (Some (port m'), None), _; split; [reflexivity|].
    repeat split; exact Hu. }
  destruct HP as (x & s' & E & Hx).
  split.
  - rewrite E; cbn. destruct x as [[sp|] err]; [|exact Hx].
    destruct Hx as (He & Hu & _); split; assumption.
  - unfold OpenByName, bind2. rewrite E.
    destruct x as [[sp|] err].
    + destruct Hx as (-> & Hu & Hsp).
      unfold lift at 1.
      destruct (open_run opt (here s')) as (m' & e & Eo & Hopen & Hr & Hw).
      rewrite Eo; cbn [final].
      destruct e as [e|]; [cbn; discriminate|].
      rewrite lift_self; cbn.
      rewrite Hr, Hw, Hsp.
      unfold unopened in Hu.
      apply andb_prop in Hu as [Hu Hwd]; apply andb_prop in Hu as [Hu Hrd].
      apply Z.eqb_eq in Hwd, Hrd.
      repeat split; auto.
    + destruct err as [e|]; [cbn; discriminate|].
      exfalso; apply Hx; reflexivity.
Qed.

(** X12: [InputWaiting] and [OutputWaiting] return, after one call, a count
    that is never negative and is zero whenever the error is not nil; the
    Port object is not changed. *)
Theorem waiting_counts (s : session) :
  match returned2 (InputWaiting s) with
  | Some (n, err) => 0 <= n /\ (err <> None -> n = 0)
  | None => False
  end /\
  match returned2 (OutputWaiting s) with
  | Some (n, err) => 0 <= n /\ (err <> None -> n = 0)
  | None => False
  end /\
  calls2 InputWaiting s
  = [Called2 (sp_input_waiting (p (port (here s))))] /\
  calls2 OutputWaiting s
  = [Called2 (sp_output_waiting (p (port (here s))))] /\
  port (here (final2 (InputWaiting s))) = port (here s) /\
  port (here (final2 (OutputWaiting s))) = port (here s).
Proof.
  unfold calls2, InputWaiting, OutputWaiting, bind2.
  rewrite !lift_self. unfold invoke2, ret2.
  destruct (answer2 _ (sp_input_waiting _) _) as [n w].
  destruct (answer2 _ (sp_output_waiting _) _) as [n' w'].
  destruct (Z.ltb_spec n 0), (Z.ltb_spec n' 0); cbn;
    rewrite ?skipn_length_app; repeat split; try lia; congruence.
Qed.

(** X13: [WriteString] does not look at the write deadline.  Whatever
    deadline was set, it makes the one call of writing the string to the
    file, for the empty string too, where [Write] with a deadline set hands
    the bytes to the provider or panics. *)
Theorem WriteString_ignores_deadline (t : Time) (str : string) (s : session) :
  let s' := final2 (lift (SetWriteDeadline t) s) in
  calls2 (WriteString str) s'
  = [Called2 (os_File_WriteString (f (port (here s))) str)] /\
  returned2 (WriteString str s') = returned2 (WriteString str s) /\
  returned2 (WriteString str s)
  = Some (fst (answer2 _ (os_File_WriteString (f (port (here s))) str)
                 (env (here s)))).
Proof.
  cbv zeta. unfold calls2, WriteString, bind2.
  rewrite !lift_self. unfold invoke2, lift, SetWriteDeadline, bind, update, ret.
  cbn.
  destruct (answer2 _ (os_File_WriteString _ _) _) as [n w]; cbn.
  rewrite skipn_length_app. repeat split.
Qed.

End PackageFacts2.

(** [ListPorts_outcomes] on the reference provider: one port, the list freed
    once. *)
Lemma ListPorts_outcomes_witness :
  let s := @start reference (boot at_115200) in
  List.length
    (filter is_free_port_list
       (calls2 (@ListPorts libserialport_h reference reference_registry) s))
  = 1%nat /\
  option_map (fun x => option_map (@List.length Port) (fst x))
    (returned2 (@ListPorts libserialport_h reference reference_registry s))
  = Some (Some 1%nat).
Proof.
  cbv zeta; split; [|reflexivity].
  exact (proj1 (@ListPorts_outcomes libserialport_h reference
                  reference_registry (@start reference (boot at_115200)))).
Defined.

(** ** Conversions at the boundary *)

Section Boundary.
Context {K : sp_enum} {P : provider}.

(** X14: the configuring calls [open] makes are none (when the port could
    not be opened or its configuration not read) or exactly
    [open_configuration]: whatever the provider answers to them, and all of
    them whenever [open] returns nil. *)
Theorem open_configuration_sequence (m : machine) (opt : Options.t) :
  let made := filter configures (calls_of (open opt) m) in
  (made = [] \/ made = open_configuration opt (port m)) /\
  (returned (open opt m) = Some None ->
   made = open_configuration opt (port m)).
Proof.
  run_with ltac:(unfold open, Open, Close, SetBaudrate, SetDataBits,
                  SetStopBits, SetParity, SetRTS, SetDTR, SetFlowControl,
                  setter, ApplyConfig, Name, open_configuration).
  destruct (answer Z (sp_open (p (port m)) (C_uint (open_mode opt))) (env m))
    as [r0 w0] eqn:E0; cbn.
  destruct (errmsg r0) as [e0|] eqn:H0; cbn.
  { traces; split; [left; reflexivity|discriminate]. }
  destruct (answer Z (sp_get_config (p (port m)) (c (port m))) w0)
    as [r1 w1] eqn:E1; cbn.
  destruct (errmsg r1) as [e1|] eqn:H1; cbn.
  { answers; traces; split; [left; reflexivity|discriminate]. }
  destruct (Options.Baudrate opt =? 0); cbn; answers;
  (destruct (Options.DataBits opt =? 0); cbn; answers;
   destruct (Options.StopBits opt =? 0); cbn; answers;
   match goal with |- context [errmsg ?r] => destruct (errmsg r) eqn:? end;
   cbn; answers; traces; (split; [right; reflexivity|intros _; reflexivity])).
Qed.

Lemma C_int_period (v k : Z) : C_int (v + k * 2 ^ 32) = C_int v.
Proof.
  unfold C_int.
  replace (v + k * 2 ^ 32 + 2 ^ 31) with (v + 2 ^ 31 + k * 2 ^ 32) by ring.
  rewrite Z.mod_add by (vm_compute; discriminate); reflexivity.
Qed.

Lemma C_int_small (v : Z) : - 2 ^ 31 <= v < 2 ^ 31 -> C_int v = v.
Proof. intros H; unfold C_int; rewrite Z.mod_small; lia. Qed.

(** X15: the setters hand the provider the low 32 bits of their argument.
    A value in the range of a C int is passed as it is; two values that
    differ by a multiple of [2 ^ 32] give the same call, the same result
    and the same machine. *)
Theorem setters_keep_low_32_bits
  (set : Z -> M (option error)) (v k : Z) (m : machine) :
  In set (SetBaudrate :: SetDataBits :: SetParity :: SetStopBits :: SetRTS
          :: SetCTS :: SetDTR :: SetDSR :: SetXonXoff :: nil) ->
  set (v + k * 2 ^ 32) m = set v m /\
  (- 2 ^ 31 <= v < 2 ^ 31 ->
   exists e : event, calls_of (set v) m = [e] /\
     (e = Called (sp_set_baudrate (p (port m)) v) \/
      exists fld, e = Called (sp_set_config_ fld (c (port m)) v))).
Proof.
  cbn; intros H.
  repeat (destruct H as [<-|H];
          [split;
           [unfold SetBaudrate, SetDataBits, SetParity, SetStopBits, SetRTS,
              SetCTS, SetDTR, SetDSR, SetXonXoff, setter, bind, self; cbn;
            rewrite C_int_period; reflexivity
           |intros Hv;
            run_with ltac:(unfold SetBaudrate, SetDataBits, SetParity,
                            SetStopBits, SetRTS, SetCTS, SetDTR, SetDSR,
                            SetXonXoff, setter);
            rewrite (C_int_small v Hv); answers; traces;
            eexists; split; [reflexivity|];
            first [left; reflexivity | right; eexists; reflexivity]]|]).
  destruct H.
Qed.


End Boundary.

(** [open_configuration_sequence] for [Open(Options{})] on the reference
    provider. *)
Lemma open_configuration_sequence_witness :
  returned (@open libserialport_h reference Options.zero (created at_115200))
  = Some None /\
  filter configures
    (calls_of (@open libserialport_h reference Options.zero)
       (created at_115200))
  = @open_configuration libserialport_h Options.zero
      (port (created at_115200)).
Proof.
  split; [reflexivity|].
  exact (proj2 (@open_configuration_sequence libserialport_h reference
                  (created at_115200) Options.zero) eq_refl).
Defined.

(** [setters_keep_low_32_bits] for [SetDataBits(8)] and
    [SetDataBits(8 + 2 ^ 32)]. *)
Lemma setters_keep_low_32_bits_witness :
  @SetDataBits libserialport_h reference (8 + 1 * 2 ^ 32)
    (opened_with Options.zero at_115200)
  = @SetDataBits libserialport_h reference 8
      (opened_with Options.zero at_115200).
Proof.
  exact (proj1 (@setters_keep_low_32_bits libserialport_h reference
                  (@SetDataBits libserialport_h reference) 8 1
                  (opened_with Options.zero at_115200)
                  (or_intror (or_introl eq_refl)))).
Defined.

